(** * Sipzooppp order app: cart, checkout, order log and sales analytics

    A shallow embedding of [Lemonade.py].  The Streamlit script keeps its
    data in [st.session_state] and in one CSV file; here the session state
    is a record, the file is a value of type [option file_content], and
    every function that touches them takes the old state and returns the
    new one together with the user-interface events it emitted.

    Conventions.
    - A Python [str] is a list of Unicode code points ([pystr]).
    - Money.  Every catalog price is a multiple of a quarter dollar and
      quantities are small integers, so the binary floating point
      arithmetic of the script is exact on them; an amount is modelled by
      its number of cents in [Z] (4.00 is [400]).
    - [datetime.now()], the outcome of the file write and the name of the
      data file are inputs of the functions that use them. *)

From Stdlib Require Import ZArith NArith List String Ascii Bool Lia.
From Stdlib Require Import DecimalString.
Import ListNotations.
Open Scope Z_scope.
Set Warnings "-register-all".

(** ** Python strings *)

Module PyStr.

Definition pychar := N.
Definition pystr := list pychar.

(** An ASCII literal of the script. *)
Definition lit (s : string) : pystr :=
  map N_of_ascii (list_ascii_of_string s).

Fixpoint eqb (a b : pystr) : bool :=
  match a, b with
  | [], [] => true
  | x :: a', y :: b' => N.eqb x y && eqb a' b'
  | _, _ => false
  end.

Definition len (s : pystr) : Z := Z.of_nat (List.length s).

Definition in_ranges (rs : list (N * N)) (c : pychar) : bool :=
  existsb (fun r => N.leb (fst r) c && N.leb c (snd r)) rs.

(** Code points whose Numeric_Type is Digit or Decimal (Unicode 14.0),
    the characters [str.isdigit] accepts. *)
Definition digit_ranges : list (N * N) :=
  [(48, 57); (178, 179); (185, 185); (1632, 1641); (1776, 1785);
   (1984, 1993); (2406, 2415); (2534, 2543); (2662, 2671); (2790, 2799);
   (2918, 2927); (3046, 3055); (3174, 3183); (3302, 3311); (3430, 3439);
   (3558, 3567); (3664, 3673); (3792, 3801); (3872, 3881); (4160, 4169);
   (4240, 4249); (4969, 4977); (6112, 6121); (6160, 6169); (6470, 6479);
   (6608, 6618); (6784, 6793); (6800, 6809); (6992, 7001); (7088, 7097);
   (7232, 7241); (7248, 7257); (8304, 8304); (8308, 8313); (8320, 8329);
   (9312, 9320); (9332, 9340); (9352, 9360); (9450, 9450); (9461, 9469);
   (9471, 9471); (10102, 10110); (10112, 10120); (10122, 10130);
   (42528, 42537); (43216, 43225); (43264, 43273); (43472, 43481);
   (43504, 43513); (43600, 43609); (44016, 44025); (65296, 65305);
   (66720, 66729); (68160, 68163); (68912, 68921); (69216, 69224);
   (69714, 69722); (69734, 69743); (69872, 69881); (69942, 69951);
   (70096, 70105); (70384, 70393); (70736, 70745); (70864, 70873);
   (71248, 71257); (71360, 71369); (71472, 71481); (71904, 71913);
   (72016, 72025); (72784, 72793); (73040, 73049); (73120, 73129);
   (92768, 92777); (92864, 92873); (93008, 93017); (120782, 120831);
   (123200, 123209); (123632, 123641); (125264, 125273);
   (127232, 127242); (130032, 130041)]%N.

Definition isdigit_char (c : pychar) : bool := in_ranges digit_ranges c.

(** [s.isdigit()]: at least one character and all of them digits. *)
Definition isdigit (s : pystr) : bool :=
  match s with
  | [] => false
  | _ => forallb isdigit_char s
  end.

(** The ten characters 0..9. *)
Definition is_ascii_digit (c : pychar) : bool :=
  N.leb 48 c && N.leb c 57.

(** White space in the sense of [str.isspace]. *)
Definition space_ranges : list (N * N) :=
  [(9, 13); (28, 32); (133, 133); (160, 160); (5760, 5760);
   (8192, 8202); (8232, 8233); (8239, 8239); (8287, 8287);
   (12288, 12288)]%N.

Definition isspace_char (c : pychar) : bool := in_ranges space_ranges c.

Fixpoint lstrip (s : pystr) : pystr :=
  match s with
  | c :: s' => if isspace_char c then lstrip s' else s
  | [] => []
  end.

(** [s.strip()]. *)
Definition strip (s : pystr) : pystr := rev (lstrip (rev (lstrip s))).

(** [str(n)] for an [int]. *)
Definition of_Z (z : Z) : pystr := lit (NilZero.string_of_int (Z.to_int z)).

Definition two_digits (n : Z) : pystr :=
  [Z.to_N (48 + n / 10); Z.to_N (48 + n mod 10)].

(** [f"{x:.2f}"] for an amount of [c] cents. *)
Definition fmt2f (c : Z) : pystr :=
  (if c <? 0 then lit "-" else []) ++
  of_Z (Z.abs c / 100) ++ lit "." ++ two_digits (Z.abs c mod 100).

End PyStr.
Import PyStr.

(** ** Python dictionaries, in insertion order *)

Section Dict.
Context {V : Type}.

Definition dict := list (pystr * V).

Fixpoint dict_get (d : dict) (k : pystr) : option V :=
  match d with
  | [] => None
  | (k', v) :: d' => if PyStr.eqb k' k then Some v else dict_get d' k
  end.

(** [d[k] = v]: overwrite in place, or append a new key. *)
Fixpoint dict_set (d : dict) (k : pystr) (v : V) : dict :=
  match d with
  | [] => [(k, v)]
  | (k', v') :: d' =>
      if PyStr.eqb k' k then (k', v) :: d' else (k', v') :: dict_set d' k v
  end.

Definition dict_keys (d : dict) : list pystr := map fst d.
End Dict.
Arguments dict V : clear implicits.

(** ** 1. Configuration and product definitions *)

Record product := { emoji : pystr; price : Z }.

Definition PRODUCTS : dict product :=
  [ (lit "Classic Lemonade",        {| emoji := [127819%N];          price := 400 |});
    (lit "Strawberry Mint",         {| emoji := [127827%N; 127807%N]; price := 550 |});
    (lit "Iced Tea Fusion",         {| emoji := [129482%N; 9749%N];   price := 450 |});
    (lit "Blue Raspberry Zest",     {| emoji := [129744%N];          price := 525 |});
    (lit "Sparkling Limeade",       {| emoji := [10024%N];           price := 500 |});
    (lit "Ginger Honey Detox",      {| emoji := [127855%N];          price := 575 |});
    (lit "Watermelon Basil Cooler", {| emoji := [127817%N; 127793%N]; price := 600 |});
    (lit "Tropical Mango Blend",    {| emoji := [129389%N; 127821%N]; price := 625 |}) ].

Definition MAX_QTY : Z := 8.

(** ** Order records and the order history *)

(** One entry of [cart_items]: the dictionary with the keys
    [Item], [Quantity], [Price] and [Line Total]. *)
Record item := {
  Item : pystr;
  Quantity : Z;
  Price : pystr;
  Line_Total : pystr
}.

(** One row of the order history data frame. *)
Record order := {
  Timestamp : pystr;
  Customer_Name : pystr;
  Mobile_Number : pystr;
  Items_Ordered : list item;
  Total_Price : Z
}.

Definition DataFrame := list order.

(** [pd.DataFrame(columns=cols)] *)
Definition empty_frame : DataFrame := [].

(** [df.empty] *)
Definition df_empty (df : DataFrame) : bool :=
  match df with [] => true | _ => false end.

(** [pd.concat([a, b], ignore_index=True)] *)
Definition concat (a b : DataFrame) : DataFrame := a ++ b.

(** ** Exceptions and user-interface events *)

Record exn := { exn_class : pystr; exn_text : pystr }.

(** The value shown by [st.metric]. *)
Inductive metric_value :=
| MInt (z : Z)
| MStr (s : pystr).

Inductive ui_event :=
| StError (msg : pystr)
| StWarning (msg : pystr)
| StInfo (msg : pystr)
| StToast (msg : pystr) (icon : pystr)
| StSubheader (msg : pystr)
| StMetric (label : pystr) (value : metric_value).

(** Result of a library call that may raise. *)
Inductive result (A : Type) :=
| Ok (a : A)
| Raise (e : exn).
Arguments Ok {A} a.
Arguments Raise {A} e.

(** ** 2. Persistence

    The data file after CSV tokenisation.  A file written by [to_csv] is a
    header line followed by one line per order; its [Items Ordered] field
    holds [str(cart_items)], the text of a Python list display of dict
    displays.  The model keeps that field as the expression the text
    denotes, which is what [pd.eval] obtains from it before it evaluates
    anything. *)

Inductive pyexpr :=
| EStr (s : pystr)
| EInt (z : Z)
| EList (es : list pyexpr)
| EDict (kvs : list (pyexpr * pyexpr)).

Inductive pyval :=
| VStr (s : pystr)
| VInt (z : Z)
| VList (vs : list pyval).

Record csv_row := {
  f_Timestamp : pystr;
  f_Customer_Name : pystr;
  f_Mobile_Number : pystr;
  f_Items_Ordered : pyexpr;
  f_Total_Price : Z
}.

Inductive file_content :=
| ZeroBytes                      (* the file exists and has length 0 *)
| CsvText (rows : list csv_row)  (* header line, then these rows *)
| Unreadable (e : exn)           (* other content: opening or tokenising it raises [e] *)
| OtherText (frame : DataFrame). (* other content that is read without raising, such
                                    as a table with other columns; [frame] is what
                                    [read_csv] returns for it, as far as the frame
                                    type of this file can hold it *)

(** [os.path.getsize(DATA_FILE) > 0] *)
Definition has_content (f : file_content) : bool :=
  match f with
  | ZeroBytes => false
  | _ => true
  end.

(** [str(d)] of one cart entry, as an expression. *)
Definition item_display (it : item) : pyexpr :=
  EDict [ (EStr (lit "Item"), EStr (Item it));
          (EStr (lit "Quantity"), EInt (Quantity it));
          (EStr (lit "Price"), EStr (Price it));
          (EStr (lit "Line Total"), EStr (Line_Total it)) ].

Definition items_display (l : list item) : pyexpr :=
  EList (map item_display l).

Definition to_csv_row (o : order) : csv_row :=
  {| f_Timestamp := Timestamp o;
     f_Customer_Name := Customer_Name o;
     f_Mobile_Number := Mobile_Number o;
     f_Items_Ordered := items_display (Items_Ordered o);
     f_Total_Price := Total_Price o |}.

(** [df.to_csv(DATA_FILE, index=False)], when the write completes. *)
Definition to_csv (df : DataFrame) : file_content :=
  CsvText (map to_csv_row df).

Definition Dict_not_implemented : exn :=
  {| exn_class := lit "NotImplementedError";
     exn_text := lit "'Dict' nodes are not implemented" |}.

Definition EmptyDataError : exn :=
  {| exn_class := lit "EmptyDataError";
     exn_text := lit "No columns to parse from file" |}.

(** [pd.eval]: the expression visitor of pandas walks the parsed
    expression; it builds a list from the values of its elements
    ([visit_List]) and has no case for dict displays, on which it raises
    [NotImplementedError]. *)
Fixpoint pd_eval (e : pyexpr) : result pyval :=
  match e with
  | EStr s => Ok (VStr s)
  | EInt z => Ok (VInt z)
  | EList es =>
      let fix visit_elts (l : list pyexpr) : result (list pyval) :=
        match l with
        | [] => Ok []
        | x :: l' =>
            match pd_eval x with
            | Raise ex => Raise ex
            | Ok v =>
                match visit_elts l' with
                | Raise ex => Raise ex
                | Ok vs => Ok (v :: vs)
                end
            end
        end in
      match visit_elts es with
      | Raise ex => Raise ex
      | Ok vs => Ok (VList vs)
      end
  | EDict _ => Raise Dict_not_implemented
  end.

(** The converter of the [Items Ordered] column applied to every row. *)
Fixpoint convert_rows (rows : list csv_row) : result (list (csv_row * pyval)) :=
  match rows with
  | [] => Ok []
  | r :: rows' =>
      match pd_eval (f_Items_Ordered r) with
      | Raise ex => Raise ex
      | Ok v =>
          match convert_rows rows' with
          | Raise ex => Raise ex
          | Ok cs => Ok ((r, v) :: cs)
          end
      end
  end.

(** What the write of the file does: it completes, or it raises and
    leaves the file in some state. *)
Inductive write_outcome :=
| Written
| WriteFails (e : exn) (remains : option file_content).

Section Persistence.

(** Name of the data file, fixed when the server starts. *)
Variable DATA_FILE : pystr.

(** The data frame pandas assembles from the rows once every converter
    call has returned (column type inference included). *)
Variable build_frame : list (csv_row * pyval) -> DataFrame.

(** [pd.read_csv(DATA_FILE, converters={'Items Ordered': pd.eval})] *)
Definition read_csv (f : file_content) : result DataFrame :=
  match f with
  | ZeroBytes => Raise EmptyDataError
  | Unreadable e => Raise e
  | OtherText frame => Ok frame
  | CsvText rows =>
      match convert_rows rows with
      | Raise ex => Raise ex
      | Ok cells => Ok (build_frame cells)
      end
  end.

Definition load_error_msg (e : exn) : pystr :=
  lit "Error loading data from existing file " ++ DATA_FILE ++
  lit ". Starting with an empty log. Details: " ++ exn_text e.

Definition load_orders (disk : option file_content)
  : DataFrame * list ui_event :=
  let file_exists :=
    match disk with
    | Some f => has_content f
    | None => false
    end in
  if file_exists then
    match disk with
    | Some f =>
        match read_csv f with
        | Ok df => (df, [])
        | Raise e => (empty_frame, [StError (load_error_msg e)])
        end
    | None => (empty_frame, [])
    end
  else (empty_frame, []).

End Persistence.

(** [save_orders(df)]: the file is overwritten; a failing write raises. *)
Definition save_orders (df : DataFrame) (wo : write_outcome)
  : option file_content * option exn :=
  match wo with
  | Written => (Some (to_csv df), None)
  | WriteFails e remains => (remains, Some e)
  end.

(** ** 3. Session state

    [input_qty] holds the keys [f"input_{name}"] of the quantity widgets,
    indexed by product name.  The two text inputs exist in the session
    state only once their widget was drawn or [clear_cart] has run. *)

Record session_state := {
  order_history : DataFrame;
  cart : dict Z;
  input_qty : dict Z;
  customer_name_input : option pystr;
  mobile_number_input : option pystr
}.

(** [{name: 0 for name in PRODUCTS}] *)
Definition zero_cart : dict Z := map (fun p => (fst p, 0)) PRODUCTS.

(** The state of a new session, given what [load_orders] returned. *)
Definition init_session (loaded : DataFrame) : session_state :=
  {| order_history := loaded;
     cart := zero_cart;
     input_qty := fold_left (fun d name => dict_set d name 0) (dict_keys PRODUCTS) [];
     customer_name_input := None;
     mobile_number_input := None |}.

(** The session state and the data file. *)
Record world := {
  session : session_state;
  data_file : option file_content
}.

(** ** 4. Cart logic and callbacks *)

Definition clear_cart (s : session_state) : session_state * list ui_event :=
  ({| order_history := order_history s;
      cart := zero_cart;
      customer_name_input := Some (lit "");
      mobile_number_input := Some (lit "");
      input_qty :=
        fold_left (fun d name => dict_set d name 0) (dict_keys PRODUCTS) (input_qty s) |},
   [StToast (lit "Cart cleared! Ready for the next order.") [128260%N]]).

(** How a callback ends: it returns, it reaches [st.rerun()], or an
    exception leaves it. *)
Inductive outcome :=
| Returned
| Rerun
| Raised (e : exn).

Definition msg_MissingName : pystr :=
  lit "Please enter the Customer Name to place the order.".
Definition msg_InvalidMobile : pystr :=
  lit "Please enter a valid 10-digit Mobile Number.".
Definition msg_EmptyCart : pystr :=
  lit "Your cart is empty! Add some items before placing an order.".

(** [not mobile or not mobile.isdigit() or len(mobile) != 10] *)
Definition mobile_rejected (mobile : pystr) : bool :=
  PyStr.eqb mobile [] || negb (isdigit mobile) || negb (len mobile =? 10).

Definition new_order_row (now : pystr) (cart_details : list item)
    (total_price : Z) (name mobile : pystr) : order :=
  {| Timestamp := now;
     Customer_Name := name;
     Mobile_Number := mobile;
     Items_Ordered := cart_details;
     Total_Price := total_price |}.

Definition set_history (s : session_state) (h : DataFrame) : session_state :=
  {| order_history := h;
     cart := cart s;
     input_qty := input_qty s;
     customer_name_input := customer_name_input s;
     mobile_number_input := mobile_number_input s |}.

(** [now] is [datetime.now().strftime("%Y-%m-%d %H:%M:%S")] and [wo] what
    the write of the data file will do. *)
Definition place_order_and_rerun (now : pystr) (wo : write_outcome)
    (cart_details : list item) (total_price : Z) (name mobile : pystr)
    (w : world) : world * list ui_event * outcome :=
  if PyStr.eqb name [] then
    (w, [StError msg_MissingName], Returned)
  else if mobile_rejected mobile then
    (w, [StError msg_InvalidMobile], Returned)
  else if total_price <=? 0 then
    (w, [StError msg_EmptyCart], Returned)
  else
    let new_order := [new_order_row now cart_details total_price name mobile] in
    let s1 := set_history (session w) (concat (order_history (session w)) new_order) in
    match save_orders (order_history s1) wo with
    | (disk, Some e) =>
        ({| session := s1; data_file := disk |}, [], Raised e)
    | (disk, None) =>
        let (s2, cleared) := clear_cart s1 in
        ({| session := s2; data_file := disk |},
         cleared ++
         [StToast (lit "Order Placed for " ++ name ++ lit "! Total: $" ++ fmt2f total_price)
                  [9989%N]],
         Rerun)
    end.

(** ** 5. Main script: the shopping cart column *)

(** The loop over [st.session_state.cart.items()] that builds [cart_items]
    and [cart_total]; [None] when [PRODUCTS[name]] raises [KeyError]. *)
Fixpoint cart_loop (c : dict Z) (cart_items : list item) (cart_total : Z)
  : option (list item * Z) :=
  match c with
  | [] => Some (cart_items, cart_total)
  | (name, qty) :: rest =>
      if 0 <? qty then
        match dict_get PRODUCTS name with
        | None => None
        | Some p =>
            let line_total := qty * price p in
            cart_loop rest
              (cart_items ++
               [{| Item := name; Quantity := qty;
                   Price := lit "$" ++ fmt2f (price p);
                   Line_Total := lit "$" ++ fmt2f line_total |}])
              (cart_total + line_total)
        end
      else cart_loop rest cart_items cart_total
  end.

Definition cart_summary (c : dict Z) : option (list item * Z) :=
  cart_loop c [] 0.

(** The click on the checkout button: the callback receives the cart
    items and total the script computed from the session's cart.  The
    button is drawn only when [cart_items] is not empty. *)
Definition checkout_click (now : pystr) (wo : write_outcome)
    (customer_name mobile_number : pystr) (w : world)
  : option (world * list ui_event * outcome) :=
  match cart_summary (cart (session w)) with
  | Some (x :: cart_items, cart_total) =>
      Some (place_order_and_rerun now wo (x :: cart_items) cart_total
              customer_name mobile_number w)
  | _ => None
  end.

(** ** Sales analytics tab *)

(** [sum(...)] of Python and [Series.sum()]: a left fold from 0. *)
Definition py_sum (l : list Z) : Z := fold_left Z.add l 0.

(** The [try] around the count of items guards the lookup
    [item['Quantity']]; every entry here is an [item] record, which has
    that field, so the [except] branch has no counterpart. *)
Definition tab2 (history : DataFrame) : list ui_event :=
  if negb (df_empty history) then
    let total_orders := Z.of_nat (List.length history) in
    let total_revenue := py_sum (map Total_Price history) in
    let total_items :=
      py_sum (flat_map (fun cart => map Quantity cart)
                       (map Items_Ordered history)) in
    [ StSubheader (lit "Quick Sales Summary");
      StMetric (lit "Total Transactions") (MInt total_orders);
      StMetric (lit "Gross Revenue") (MStr (lit "$" ++ fmt2f total_revenue));
      StMetric (lit "Total Items Sold") (MInt total_items) ]
  else
    [ StInfo (lit "Place orders to unlock sales analytics!") ].

(** ** Vocabulary of the specification *)

Definition res_world (r : world * list ui_event * outcome) : world := fst (fst r).
Definition res_events (r : world * list ui_event * outcome) : list ui_event := snd (fst r).
Definition res_outcome (r : world * list ui_event * outcome) : outcome := snd r.

(** A checkout validation failure: the callback shows the error message
    and returns.  [MissingName], [InvalidMobile] and [EmptyCart] are the
    three messages of the callback. *)
Definition fails_with (msg : pystr) (r : world * list ui_event * outcome) : Prop :=
  res_events r = [StError msg] /\ res_outcome r = Returned.

Definition MissingName := fails_with msg_MissingName.
Definition InvalidMobile := fails_with msg_InvalidMobile.
Definition EmptyCart := fails_with msg_EmptyCart.

(** The specification's condition on the name: empty after trimming. *)
Definition spec_name_missing (name : pystr) : Prop := strip name = [].

(** The specification's condition on the mobile number: exactly ten
    characters, each one of 0..9. *)
Definition spec_mobile_valid (mobile : pystr) : Prop :=
  List.length mobile = 10%nat /\ forallb is_ascii_digit mobile = true.

(** What the code checks instead: ten characters accepted by [isdigit]. *)
Definition ten_unicode_digits (mobile : pystr) : Prop :=
  List.length mobile = 10%nat /\ forallb isdigit_char mobile = true.

(** [Cart.total()] *)
Definition Cart_total (c : dict Z) : option Z :=
  option_map snd (cart_summary c).

(** The analytics figures as the specification words them. *)
Fixpoint spec_grossRevenue (log : list order) : Z :=
  match log with
  | [] => 0
  | r :: log' => Total_Price r + spec_grossRevenue log'
  end.

Fixpoint spec_quantity (items : list item) : Z :=
  match items with
  | [] => 0
  | i :: items' => Quantity i + spec_quantity items'
  end.

Fixpoint spec_totalItemsSold (log : list order) : Z :=
  match log with
  | [] => 0
  | r :: log' => spec_quantity (Items_Ordered r) + spec_totalItemsSold log'
  end.

(** The specification's sound persisted storage: the file is what
    [to_csv] writes for some order log. *)
Definition spec_persisted_log (f : file_content) : Prop :=
  exists log, f = to_csv log.

(** "Unreadable" storage: the file is there and reading it raises. *)
Definition spec_unreadable (build_frame : list (csv_row * pyval) -> DataFrame)
    (disk : option file_content) (e : exn) : Prop :=
  exists f, disk = Some f /\ read_csv build_frame f = Raise e.

(** "Corrupt" storage: the file is there and is not the persisted form of
    any order log. *)
Definition spec_corrupt (disk : option file_content) : Prop :=
  exists f, disk = Some f /\ ~ spec_persisted_log f.

(** The state [clear_cart] promises: every quantity 0, customer fields empty. *)
Definition cleared (s : session_state) : Prop :=
  dict_keys (cart s) = dict_keys PRODUCTS /\
  Forall (fun kv => snd kv = 0) (cart s) /\
  (forall name, In name (dict_keys PRODUCTS) -> dict_get (input_qty s) name = Some 0) /\
  customer_name_input s = Some [] /\
  mobile_number_input s = Some [].

(** ** A sample session *)

Module Sample.

Definition now : pystr := lit "2025-03-01 10:15:00".
Definition name : pystr := lit "Asha".
Definition mobile : pystr := lit "9876543210".

(** The cart [{"Classic Lemonade": 2}], every other quantity 0. *)
Definition lemonade_cart : dict Z := dict_set zero_cart (lit "Classic Lemonade") 2.

Definition lemonade_items : list item :=
  [ {| Item := lit "Classic Lemonade"; Quantity := 2;
       Price := lit "$4.00"; Line_Total := lit "$8.00" |} ].

Definition start : world :=
  {| session :=
       {| order_history := [];
          cart := lemonade_cart;
          input_qty := lemonade_cart;
          customer_name_input := Some name;
          mobile_number_input := Some mobile |};
     data_file := None |}.

Definition disk_full : exn :=
  {| exn_class := lit "OSError";
     exn_text := lit "[Errno 28] No space left on device" |}.

Definition garbled : exn :=
  {| exn_class := lit "ParserError";
     exn_text := lit "Error tokenizing data" |}.

(** Ten times SUPERSCRIPT TWO. *)
Definition superscripts : pystr := repeat 178%N 10.

Definition file_name : pystr := lit "orders_20250301_101500.csv".

Definition no_frame (cells : list (csv_row * pyval)) : DataFrame := [].

(** A row of a table file whose items field is the text of [[1, 2]]. *)
Definition odd_row : csv_row :=
  {| f_Timestamp := now;
     f_Customer_Name := name;
     f_Mobile_Number := mobile;
     f_Items_Ordered := EList [EInt 1; EInt 2];
     f_Total_Price := 800 |}.

(** Turns every row of the file into a row of the frame, without items. *)
Definition plain_frame (cells : list (csv_row * pyval)) : DataFrame :=
  map (fun c => {| Timestamp := f_Timestamp (fst c);
                   Customer_Name := f_Customer_Name (fst c);
                   Mobile_Number := f_Mobile_Number (fst c);
                   Items_Ordered := [];
                   Total_Price := f_Total_Price (fst c) |}) cells.

(** What a file that is no order log was read as. *)
Definition stray_frame : DataFrame :=
  [ {| Timestamp := lit "x"; Customer_Name := lit "y"; Mobile_Number := lit "z";
       Items_Ordered := []; Total_Price := 0 |} ].

(** A session in which one quantity widget holds 9 and another 3, with
    the cart of the run before. *)
Definition crowded : session_state :=
  {| order_history := [];
     cart := lemonade_cart;
     input_qty := dict_set (dict_set zero_cart (lit "Classic Lemonade") 9)
                           (lit "Strawberry Mint") 3;
     customer_name_input := Some name;
     mobile_number_input := Some mobile |}.

End Sample.

(** ** Session start and the product menu

    Before its first run a session holds none of the keys; [raw_state] is
    the session state with the two keys the script tests for presence
    made optional. *)

Record raw_state := {
  raw_order_history : option DataFrame;
  raw_cart : option (dict Z);
  raw_input_qty : dict Z;
  raw_customer_name_input : option pystr;
  raw_mobile_number_input : option pystr
}.

Definition to_raw (s : session_state) : raw_state :=
  {| raw_order_history := Some (order_history s);
     raw_cart := Some (cart s);
     raw_input_qty := input_qty s;
     raw_customer_name_input := customer_name_input s;
     raw_mobile_number_input := mobile_number_input s |}.

Definition fresh_state : raw_state :=
  {| raw_order_history := None;
     raw_cart := None;
     raw_input_qty := [];
     raw_customer_name_input := None;
     raw_mobile_number_input := None |}.

(** The loop that gives every quantity widget key the value 0 unless the
    key is already in the session state. *)
Definition init_input_keys (d : dict Z) : dict Z :=
  fold_left
    (fun d name =>
       match dict_get d name with
       | Some _ => d
       | None => dict_set d name 0
       end)
    (dict_keys PRODUCTS) d.

(** Section 3 of the script, run at the start of every script run. *)
Definition init_state (DATA_FILE : pystr)
    (build_frame : list (csv_row * pyval) -> DataFrame)
    (disk : option file_content) (r : raw_state)
  : session_state * list ui_event :=
  let (history, shown) :=
    match raw_order_history r with
    | Some h => (h, [])
    | None => load_orders DATA_FILE build_frame disk
    end in
  ({| order_history := history;
      cart := match raw_cart r with
              | Some c => c
              | None => zero_cart
              end;
      input_qty := init_input_keys (raw_input_qty r);
      customer_name_input := raw_customer_name_input r;
      mobile_number_input := raw_mobile_number_input r |},
   shown).

Definition set_cart (s : session_state) (c : dict Z) : session_state :=
  {| order_history := order_history s;
     cart := c;
     input_qty := input_qty s;
     customer_name_input := customer_name_input s;
     mobile_number_input := mobile_number_input s |}.

Definition set_input_qty (s : session_state) (d : dict Z) : session_state :=
  {| order_history := order_history s;
     cart := cart s;
     input_qty := d;
     customer_name_input := customer_name_input s;
     mobile_number_input := mobile_number_input s |}.

(** [st.number_input(min_value=0, max_value=MAX_QTY, step=1, key=...)]
    on the value stored under its key: a value within the bounds is kept,
    any other is replaced by 0, the default of the widget. *)
Definition number_input (stored : Z) : Z :=
  if (0 <=? stored) && (stored <=? MAX_QTY) then stored else 0.

(** The loop over the product list: every quantity widget is drawn, which
    leaves its value under its key, and that value is copied into the
    cart, [cart[name] = st.session_state[f"input_{name}"]].  [None] when a
    widget key is not in the session state. *)
Fixpoint menu_loop (product_list : list pystr) (s : session_state)
  : option session_state :=
  match product_list with
  | [] => Some s
  | name :: rest =>
      match dict_get (input_qty s) name with
      | None => None
      | Some stored =>
          let qty := number_input stored in
          menu_loop rest
            (set_cart (set_input_qty s (dict_set (input_qty s) name qty))
                      (dict_set (cart s) name qty))
      end
  end.

Definition product_menu (s : session_state) : option session_state :=
  menu_loop (dict_keys PRODUCTS) s.

(** The user changes the quantity widget of product [name] to [q].  The
    widget is a whole-number input with [min_value=0], [max_value=MAX_QTY]
    and [step=1]; it stores the value under its key.  [None]: the widget
    does not exist or cannot take that value. *)
Definition number_input_change (name : pystr) (q : Z) (s : session_state)
  : option session_state :=
  match dict_get PRODUCTS name with
  | None => None
  | Some _ =>
      if (0 <=? q) && (q <=? MAX_QTY)
      then Some (set_input_qty s (dict_set (input_qty s) name q))
      else None
  end.

(** ** Order history tab *)

(** [sep.join(parts)] *)
Fixpoint join (sep : pystr) (parts : list pystr) : pystr :=
  match parts with
  | [] => []
  | [p] => p
  | p :: rest => p ++ sep ++ join sep rest
  end.

Definition format_items (items_list : list item) : pystr :=
  join (lit ", ")
       (map (fun item => of_Z (Quantity item) ++ lit "x " ++ Item item) items_list).

(** A row of [display_df]: the items are shown as one string. *)
Record display_row := {
  d_Timestamp : pystr;
  d_Customer_Name : pystr;
  d_Mobile_Number : pystr;
  d_Items_Ordered : pystr;
  d_Total_Price : Z
}.

Definition display_of (o : order) : display_row :=
  {| d_Timestamp := Timestamp o;
     d_Customer_Name := Customer_Name o;
     d_Mobile_Number := Mobile_Number o;
     d_Items_Ordered := format_items (Items_Ordered o);
     d_Total_Price := Total_Price o |}.

(** What the tab shows: the table and the data of the download button, or
    the note that there are no orders. *)
Inductive tab1_view :=
| OrderTable (display_df : list display_row) (download : file_content)
| NoOrders (msg : pystr).

Definition tab1 (history : DataFrame) : tab1_view :=
  if negb (df_empty history) then
    OrderTable (map display_of history) (to_csv history)
  else
    NoOrders (lit "No orders have been placed yet.").

(** ** Vocabulary of the further properties *)

(** The cart entries with a quantity above 0, in cart order. *)
Definition positive_entries (c : dict Z) : dict Z :=
  filter (fun kv => 0 <? snd kv) c.

(** Unit price of a product in the catalog, in cents. *)
Definition catalog_price (name : pystr) : Z :=
  match dict_get PRODUCTS name with
  | Some p => price p
  | None => 0
  end.

Fixpoint lines_value (items : list item) : Z :=
  match items with
  | [] => 0
  | i :: items' => Quantity i * catalog_price (Item i) + lines_value items'
  end.

(** A cart line as the script builds it from the catalog. *)
Definition line_of_catalog (i : item) : Prop :=
  exists p,
    dict_get PRODUCTS (Item i) = Some p /\
    Price i = lit "$" ++ fmt2f (price p) /\
    Line_Total i = lit "$" ++ fmt2f (Quantity i * price p).

(** Quantity times catalog price, summed over cart entries. *)
Fixpoint entries_value (c : dict Z) : Z :=
  match c with
  | [] => 0
  | (name, qty) :: c' => qty * catalog_price name + entries_value c'
  end.

(** Sum of the catalog prices of a list of product names. *)
Fixpoint price_mass (names : list pystr) : Z :=
  match names with
  | [] => 0
  | name :: names' => catalog_price name + price_mass names'
  end.

(** The cart has exactly the catalog's product names, in catalog order. *)
Definition cart_wf (c : dict Z) : Prop := dict_keys c = dict_keys PRODUCTS.

(** Every quantity is within the bounds of the quantity widget. *)
Definition in_range (d : dict Z) : Prop :=
  Forall (fun kv => 0 <= snd kv <= MAX_QTY) d.

(** A row that passed the checks of the checkout callback. *)
Definition valid_row (o : order) : Prop :=
  Customer_Name o <> [] /\
  ten_unicode_digits (Mobile_Number o) /\
  0 < Total_Price o.

(** The data file holds exactly the in-memory order log. *)
Definition file_in_sync (w : world) : Prop :=
  data_file w = Some (to_csv (order_history (session w))).

(** * Properties *)

(** ** Strings and dictionaries *)

Lemma eqb_eq (a b : pystr) : PyStr.eqb a b = true <-> a = b.
Proof.
  revert b; induction a as [|x a IH]; intros [|y b]; simpl; split;
    try discriminate; try reflexivity.
  - intros H. apply andb_true_iff in H as [Hx Hab].
    apply N.eqb_eq in Hx. apply IH in Hab. congruence.
  - intros H. injection H as -> ->. apply andb_true_iff. split.
    + apply N.eqb_refl.
    + now apply IH.
Qed.

Lemma eqb_nil (a : pystr) : PyStr.eqb a [] = true <-> a = [].
Proof. apply eqb_eq. Qed.

Lemma eqb_nil_false (a : pystr) : a <> [] -> PyStr.eqb a [] = false.
Proof.
  intros H. destruct (PyStr.eqb a []) eqn:E; [|reflexivity].
  now apply eqb_nil in E.
Qed.

Lemma isdigit_forallb (m : pystr) :
  m <> [] -> isdigit m = forallb isdigit_char m.
Proof. destruct m; [congruence | reflexivity]. Qed.

Lemma mobile_accepted_iff (m : pystr) :
  mobile_rejected m = false <-> ten_unicode_digits m.
Proof.
  unfold mobile_rejected, ten_unicode_digits, len. split.
  - intros H. apply orb_false_iff in H as [H Hlen].
    apply orb_false_iff in H as [Hne Hdig].
    apply negb_false_iff in Hlen, Hdig. apply Z.eqb_eq in Hlen.
    split; [lia|]. destruct m; [discriminate | exact Hdig].
  - intros [Hlen Hdig].
    destruct m as [|c m]; [discriminate|].
    simpl PyStr.eqb. rewrite isdigit_forallb by discriminate.
    rewrite Hdig, Hlen. reflexivity.
Qed.

Lemma ascii_digit_isdigit (c : pychar) :
  is_ascii_digit c = true -> isdigit_char c = true.
Proof.
  unfold is_ascii_digit, isdigit_char, in_ranges, digit_ranges.
  intros H. simpl existsb. now rewrite H.
Qed.

Lemma spec_mobile_valid_accepted (m : pystr) :
  spec_mobile_valid m -> mobile_rejected m = false.
Proof.
  intros [Hlen Hall]. apply mobile_accepted_iff. split; [exact Hlen|].
  apply forallb_forall. intros c Hc.
  apply ascii_digit_isdigit. revert c Hc. now apply forallb_forall.
Qed.

Lemma spec_name_present_nonempty (name : pystr) :
  ~ spec_name_missing name -> name <> [].
Proof. intros H ->. now apply H. Qed.

Lemma msg_MissingName_InvalidMobile : msg_MissingName <> msg_InvalidMobile.
Proof. intros H. vm_compute in H. discriminate H. Qed.

Lemma msg_MissingName_EmptyCart : msg_MissingName <> msg_EmptyCart.
Proof. intros H. vm_compute in H. discriminate H. Qed.

Lemma msg_InvalidMobile_EmptyCart : msg_InvalidMobile <> msg_EmptyCart.
Proof. intros H. vm_compute in H. discriminate H. Qed.

(** ** The checkout callback, path by path *)

Section Checkout.

Variables (now : pystr) (wo : write_outcome) (cart_details : list item)
          (total_price : Z) (name mobile : pystr) (w : world).

Local Abbreviation run :=
  (place_order_and_rerun now wo cart_details total_price name mobile w).

Lemma checkout_no_name :
  name = [] -> run = (w, [StError msg_MissingName], Returned).
Proof.
  intros ->. reflexivity.
Qed.

Lemma checkout_bad_mobile :
  name <> [] -> mobile_rejected mobile = true ->
  run = (w, [StError msg_InvalidMobile], Returned).
Proof.
  intros Hn Hm. unfold place_order_and_rerun.
  rewrite (eqb_nil_false _ Hn), Hm. reflexivity.
Qed.

Lemma checkout_no_total :
  name <> [] -> mobile_rejected mobile = false -> total_price <= 0 ->
  run = (w, [StError msg_EmptyCart], Returned).
Proof.
  intros Hn Hm Ht. unfold place_order_and_rerun.
  rewrite (eqb_nil_false _ Hn), Hm.
  apply Z.leb_le in Ht. now rewrite Ht.
Qed.

Lemma checkout_accepted :
  name <> [] -> mobile_rejected mobile = false -> 0 < total_price ->
  run =
    let s1 := set_history (session w)
                (order_history (session w) ++
                 [new_order_row now cart_details total_price name mobile]) in
    match wo with
    | Written =>
        ({| session := fst (clear_cart s1);
            data_file := Some (to_csv (order_history s1)) |},
         snd (clear_cart s1) ++
         [StToast (lit "Order Placed for " ++ name ++ lit "! Total: $" ++
                   fmt2f total_price) [9989%N]],
         Rerun)
    | WriteFails e remains =>
        ({| session := s1; data_file := remains |}, [], Raised e)
    end.
Proof.
  intros Hn Hm Ht. unfold place_order_and_rerun.
  rewrite (eqb_nil_false _ Hn), Hm.
  assert (Hl : (total_price <=? 0) = false) by (apply Z.leb_gt; exact Ht).
  rewrite Hl. destruct wo; reflexivity.
Qed.

(** The four paths are the only ones. *)
Lemma checkout_paths :
  (name = [] /\ run = (w, [StError msg_MissingName], Returned)) \/
  (name <> [] /\ mobile_rejected mobile = true /\
   run = (w, [StError msg_InvalidMobile], Returned)) \/
  (name <> [] /\ mobile_rejected mobile = false /\ total_price <= 0 /\
   run = (w, [StError msg_EmptyCart], Returned)) \/
  (name <> [] /\ mobile_rejected mobile = false /\ 0 < total_price /\
   res_outcome run <> Returned /\
   order_history (session (res_world run)) =
     order_history (session w) ++
     [new_order_row now cart_details total_price name mobile]).
Proof.
  destruct (PyStr.eqb name []) eqn:En.
  - left. apply eqb_nil in En. split; [exact En|]. now apply checkout_no_name.
  - right. assert (Hn : name <> []).
    { intros E. apply eqb_nil in E. congruence. }
    destruct (mobile_rejected mobile) eqn:Em.
    + left. repeat split; auto. now apply checkout_bad_mobile.
    + right. destruct (Z.le_gt_cases total_price 0) as [Ht|Ht].
      * left. repeat split; auto. now apply checkout_no_total.
      * right. split; [exact Hn|]. split; [reflexivity|]. split; [exact Ht|].
        rewrite (checkout_accepted Hn Em Ht).
        destruct wo; split; try discriminate; reflexivity.
Qed.

Lemma returned_unchanged :
  res_outcome run = Returned -> res_world run = w.
Proof.
  intros H.
  destruct checkout_paths as [[_ E]|[(_ & _ & E)|[(_ & _ & _ & E)|(_ & _ & _ & N & _)]]];
    try (rewrite E; reflexivity).
  contradiction.
Qed.

End Checkout.

(** ** Claims about the checkout callback *)

(** C1, as the code has it.  When the write of the order log fails, the
    exception leaves the callback before [clear_cart] runs: the cart, the
    quantity widgets and the customer fields are what they were and no
    message is shown, so the order can be submitted again.  The in-memory
    order log is not rolled back: it keeps the row that was appended
    before the write. *)
Theorem C1_failed_write_keeps_cart_and_keeps_appended_row :
  forall now wo cart_details total_price name mobile w e,
    res_outcome (place_order_and_rerun now wo cart_details total_price name mobile w)
      = Raised e ->
    let w' := res_world
                (place_order_and_rerun now wo cart_details total_price name mobile w) in
    (exists remains, wo = WriteFails e remains /\ data_file w' = remains) /\
    cart (session w') = cart (session w) /\
    input_qty (session w') = input_qty (session w) /\
    customer_name_input (session w') = customer_name_input (session w) /\
    mobile_number_input (session w') = mobile_number_input (session w) /\
    res_events (place_order_and_rerun now wo cart_details total_price name mobile w) = [] /\
    order_history (session w') =
      order_history (session w) ++
      [new_order_row now cart_details total_price name mobile].
Proof.
  intros now wo items total name mobile w e H w'. subst w'.
  destruct (checkout_paths now wo items total name mobile w)
    as [[_ E]|[(_ & _ & E)|[(_ & _ & _ & E)|(Hn & Hm & Ht & _ & _)]]];
    try (rewrite E in H; discriminate H).
  rewrite (checkout_accepted now wo items total name mobile w Hn Hm Ht) in *.
  destruct wo as [|e' remains]; cbn in H; [discriminate H|].
  injection H as ->.
  split; [exists remains; split; reflexivity|].
  repeat split; reflexivity.
Qed.

Lemma C1_witness :
  res_outcome (place_order_and_rerun Sample.now (WriteFails Sample.disk_full None)
                 Sample.lemonade_items 800 Sample.name Sample.mobile Sample.start)
    = Raised Sample.disk_full /\
  cart (session (res_world
         (place_order_and_rerun Sample.now (WriteFails Sample.disk_full None)
            Sample.lemonade_items 800 Sample.name Sample.mobile Sample.start)))
    = Sample.lemonade_cart.
Proof.
  split; [reflexivity|].
  apply (C1_failed_write_keeps_cart_and_keeps_appended_row
           Sample.now (WriteFails Sample.disk_full None)
           Sample.lemonade_items 800 Sample.name Sample.mobile Sample.start
           Sample.disk_full).
  reflexivity.
Defined.

(** C1 as stated fails: after a failed write the in-memory order log is
    not the log from before the call. *)
Lemma C1_counterexample_log_not_rolled_back :
  let r := place_order_and_rerun Sample.now (WriteFails Sample.disk_full None)
             Sample.lemonade_items 800 Sample.name Sample.mobile Sample.start in
  res_outcome r = Raised Sample.disk_full /\
  order_history (session (res_world r)) <> order_history (session Sample.start).
Proof.
  split; [reflexivity|]. cbn. discriminate.
Qed.

(** C2, as the code has it.  The callback fails with [MissingName] exactly
    when the name is the empty string; nothing is trimmed. *)
Theorem C2_MissingName_iff_name_is_empty_string :
  forall now wo cart_details total_price name mobile w,
    MissingName (place_order_and_rerun now wo cart_details total_price name mobile w)
    <-> name = [].
Proof.
  intros now wo items total name mobile w. unfold MissingName, fails_with. split.
  - intros [Hev Hout].
    destruct (checkout_paths now wo items total name mobile w)
      as [[E _]|[(_ & _ & E)|[(_ & _ & _ & E)|(_ & _ & _ & N & _)]]].
    + exact E.
    + rewrite E in Hev. injection Hev as Hm.
      now destruct msg_MissingName_InvalidMobile.
    + rewrite E in Hev. injection Hev as Hm.
      now destruct msg_MissingName_EmptyCart.
    + contradiction.
  - intros E. rewrite (checkout_no_name now wo items total name mobile w E).
    split; reflexivity.
Qed.

(** C2 as stated fails: a name of one blank is empty after trimming, and
    the callback does not fail with [MissingName]; it places the order. *)
Lemma C2_counterexample_blank_name :
  spec_name_missing (lit " ") /\
  ~ MissingName (place_order_and_rerun Sample.now Written Sample.lemonade_items 800
                   (lit " ") Sample.mobile Sample.start) /\
  res_outcome (place_order_and_rerun Sample.now Written Sample.lemonade_items 800
                 (lit " ") Sample.mobile Sample.start) = Rerun.
Proof.
  split; [reflexivity|]. split; [|reflexivity].
  intros [_ H]. discriminate H.
Qed.

(** C3, as the code has it.  With a non-empty name the callback fails
    with [InvalidMobile] unless the mobile number is exactly 10 characters
    long and every character is a digit in the sense of [str.isdigit],
    which accepts 0..9 and the other Unicode digits as well.  In particular
    a number made of ten characters 0..9 passes, and the mobile numbers
    12345 and 12345abcde both fail with [InvalidMobile]. *)
Theorem C3_InvalidMobile_unless_ten_isdigit_characters :
  forall now wo cart_details total_price name mobile w,
    name <> [] ->
    (InvalidMobile (place_order_and_rerun now wo cart_details total_price name mobile w)
     <-> ~ ten_unicode_digits mobile) /\
    (spec_mobile_valid mobile ->
     ~ InvalidMobile (place_order_and_rerun now wo cart_details total_price name mobile w)) /\
    InvalidMobile
      (place_order_and_rerun now wo cart_details total_price name (lit "12345") w) /\
    InvalidMobile
      (place_order_and_rerun now wo cart_details total_price name (lit "12345abcde") w).
Proof.
  intros now wo items total name mobile w Hn.
  assert (Hiff : InvalidMobile (place_order_and_rerun now wo items total name mobile w)
                 <-> ~ ten_unicode_digits mobile).
  { unfold InvalidMobile, fails_with. split.
    - intros [Hev Hout] Hten. apply mobile_accepted_iff in Hten.
      destruct (checkout_paths now wo items total name mobile w)
        as [[E _]|[(_ & Hm & _)|[(_ & _ & _ & E)|(_ & _ & _ & N & _)]]].
      + contradiction.
      + congruence.
      + rewrite E in Hev. injection Hev as Hmsg.
        now destruct msg_InvalidMobile_EmptyCart.
      + contradiction.
    - intros Hnot. destruct (mobile_rejected mobile) eqn:Em.
      + rewrite (checkout_bad_mobile now wo items total name mobile w Hn Em).
        split; reflexivity.
      + apply mobile_accepted_iff in Em. contradiction. }
  split; [exact Hiff|]. split.
  - intros Hv Hf. apply Hiff in Hf. apply Hf.
    apply mobile_accepted_iff. now apply spec_mobile_valid_accepted.
  - split.
    + rewrite (checkout_bad_mobile now wo items total name (lit "12345") w Hn eq_refl).
      split; reflexivity.
    + rewrite (checkout_bad_mobile now wo items total name (lit "12345abcde") w Hn eq_refl).
      split; reflexivity.
Qed.

Lemma C3_witness :
  Sample.name <> [] /\
  InvalidMobile
    (place_order_and_rerun Sample.now Written Sample.lemonade_items 800
       Sample.name (lit "12345abcde") Sample.start).
Proof.
  split; [discriminate|].
  apply (C3_InvalidMobile_unless_ten_isdigit_characters
           Sample.now Written Sample.lemonade_items 800
           Sample.name Sample.mobile Sample.start).
  discriminate.
Defined.

(** C3 as stated fails: ten times the character SUPERSCRIPT TWO is not a
    number of ten characters 0..9, and the callback does not fail with
    [InvalidMobile]; it places the order. *)
Lemma C3_counterexample_superscript_digits :
  ~ spec_mobile_valid Sample.superscripts /\
  Sample.name <> [] /\
  ~ InvalidMobile
      (place_order_and_rerun Sample.now Written Sample.lemonade_items 800
         Sample.name Sample.superscripts Sample.start) /\
  res_outcome
    (place_order_and_rerun Sample.now Written Sample.lemonade_items 800
       Sample.name Sample.superscripts Sample.start) = Rerun.
Proof.
  split.
  - intros [_ H]. vm_compute in H. discriminate H.
  - split; [discriminate|]. split; [|reflexivity].
    intros [_ H]. discriminate H.
Qed.

(** C4.  With a name and a mobile number that pass validation, the
    callback fails with [EmptyCart] when the total is not greater than 0;
    and a failure with [MissingName], [InvalidMobile] or [EmptyCart]
    leaves the session state and the data file as they were, so the cart
    and [Cart.total()] are the same before and after. *)
Theorem C4_EmptyCart_and_validation_failures_leave_cart :
  forall now wo cart_details total_price name mobile w,
    (name <> [] -> mobile_rejected mobile = false -> total_price <= 0 ->
     EmptyCart (place_order_and_rerun now wo cart_details total_price name mobile w)) /\
    (MissingName (place_order_and_rerun now wo cart_details total_price name mobile w) \/
     InvalidMobile (place_order_and_rerun now wo cart_details total_price name mobile w) \/
     EmptyCart (place_order_and_rerun now wo cart_details total_price name mobile w) ->
     res_world (place_order_and_rerun now wo cart_details total_price name mobile w) = w /\
     cart (session (res_world
            (place_order_and_rerun now wo cart_details total_price name mobile w)))
       = cart (session w) /\
     Cart_total (cart (session (res_world
            (place_order_and_rerun now wo cart_details total_price name mobile w))))
       = Cart_total (cart (session w))).
Proof.
  intros now wo items total name mobile w. split.
  - intros Hn Hm Ht.
    rewrite (checkout_no_total now wo items total name mobile w Hn Hm Ht).
    split; reflexivity.
  - intros H.
    assert (Hret : res_outcome (place_order_and_rerun now wo items total name mobile w)
                   = Returned).
    { destruct H as [[_ H]|[[_ H]|[_ H]]]; exact H. }
    rewrite (returned_unchanged now wo items total name mobile w Hret).
    repeat split; reflexivity.
Qed.

Lemma C4_witness :
  (Sample.name <> [] /\ mobile_rejected Sample.mobile = false /\ 0 <= 0) /\
  EmptyCart (place_order_and_rerun Sample.now Written [] 0
               Sample.name Sample.mobile Sample.start).
Proof.
  split.
  - split; [discriminate|]. split; [reflexivity|lia].
  - apply (C4_EmptyCart_and_validation_failures_leave_cart
             Sample.now Written [] 0 Sample.name Sample.mobile Sample.start).
    + discriminate.
    + reflexivity.
    + lia.
Defined.

(** ** The cart of the sample order *)

Lemma lemonade_cart_summary :
  cart_summary Sample.lemonade_cart = Some (Sample.lemonade_items, 800).
Proof. reflexivity. Qed.

Lemma zero_cart_summary : cart_summary zero_cart = Some ([], 0).
Proof. reflexivity. Qed.

(** C5.  With a name and a mobile number that pass validation and the
    cart [{"Classic Lemonade": 2}], the click on checkout succeeds: the
    order row it builds has total price 8.00 and the one cart line, the
    row is appended to the order log in memory and the log is written to
    the data file, and afterwards [Cart.total()] is 0. *)
Theorem C5_checkout_two_classic_lemonades :
  forall now name mobile w,
    cart (session w) = Sample.lemonade_cart ->
    name <> [] ->
    mobile_rejected mobile = false ->
    exists w' events,
      checkout_click now Written name mobile w = Some (w', events, Rerun) /\
      order_history (session w') =
        order_history (session w) ++
        [ {| Timestamp := now; Customer_Name := name; Mobile_Number := mobile;
             Items_Ordered := Sample.lemonade_items; Total_Price := 800 |} ] /\
      data_file w' = Some (to_csv (order_history (session w'))) /\
      Cart_total (cart (session w')) = Some 0.
Proof.
  intros now name mobile w Hc Hn Hm.
  unfold checkout_click. rewrite Hc, lemonade_cart_summary.
  unfold Sample.lemonade_items at 1.
  change [ {| Item := lit "Classic Lemonade"; Quantity := 2;
              Price := lit "$4.00"; Line_Total := lit "$8.00" |} ]
    with Sample.lemonade_items.
  rewrite (checkout_accepted now Written Sample.lemonade_items 800 name mobile w
             Hn Hm ltac:(lia)).
  eexists. eexists. split; [reflexivity|].
  repeat split; reflexivity.
Qed.

Lemma C5_witness :
  (cart (session Sample.start) = Sample.lemonade_cart /\
   Sample.name <> [] /\ mobile_rejected Sample.mobile = false) /\
  exists w' events,
    checkout_click Sample.now Written Sample.name Sample.mobile Sample.start
      = Some (w', events, Rerun) /\
    order_history (session w') =
      order_history (session Sample.start) ++
      [ {| Timestamp := Sample.now; Customer_Name := Sample.name;
           Mobile_Number := Sample.mobile;
           Items_Ordered := Sample.lemonade_items; Total_Price := 800 |} ] /\
    data_file w' = Some (to_csv (order_history (session w'))) /\
    Cart_total (cart (session w')) = Some 0.
Proof.
  split.
  - split; [reflexivity|]. split; [discriminate|reflexivity].
  - apply (C5_checkout_two_classic_lemonades
             Sample.now Sample.name Sample.mobile Sample.start).
    + reflexivity.
    + discriminate.
    + reflexivity.
Defined.

(** ** Loading the order log *)

Lemma pd_eval_items_display (items : list item) :
  pd_eval (items_display items) =
  match items with
  | [] => Ok (VList [])
  | _ :: _ => Raise Dict_not_implemented
  end.
Proof. destruct items; reflexivity. Qed.

Lemma convert_rows_written (df : DataFrame) :
  Exists (fun o => Items_Ordered o <> []) df ->
  convert_rows (map to_csv_row df) = Raise Dict_not_implemented.
Proof.
  induction df as [|o df IH]; intros H.
  - inversion H.
  - cbn [map convert_rows to_csv_row f_Items_Ordered].
    rewrite pd_eval_items_display.
    destruct (Items_Ordered o) as [|i items] eqn:Ei; [|reflexivity].
    inversion H as [? ? Ho|? ? Hdf]; subst.
    + now destruct Ho.
    + now rewrite (IH Hdf).
Qed.

Section Load.

Variable DATA_FILE : pystr.
Variable build_frame : list (csv_row * pyval) -> DataFrame.

Lemma load_absent :
  load_orders DATA_FILE build_frame None = (empty_frame, []).
Proof. reflexivity. Qed.

Lemma load_zero_bytes :
  load_orders DATA_FILE build_frame (Some ZeroBytes) = (empty_frame, []).
Proof. reflexivity. Qed.

Lemma load_raises (f : file_content) (e : exn) :
  has_content f = true ->
  read_csv build_frame f = Raise e ->
  load_orders DATA_FILE build_frame (Some f) =
    (empty_frame, [StError (load_error_msg DATA_FILE e)]).
Proof.
  intros Hc Hr. unfold load_orders. rewrite Hc, Hr. reflexivity.
Qed.

Lemma load_message_needs_content (disk : option file_content) :
  snd (load_orders DATA_FILE build_frame disk) <> [] ->
  exists f, disk = Some f /\ has_content f = true.
Proof.
  unfold load_orders. destruct disk as [f|].
  - destruct (has_content f) eqn:Hc.
    + intros _. now exists f.
    + intros H. now destruct H.
  - intros H. now destruct H.
Qed.

(** A log holding an order with at least one cart line, once written,
    does not load again. *)
Lemma load_written (df : DataFrame) :
  Exists (fun o => Items_Ordered o <> []) df ->
  load_orders DATA_FILE build_frame (fst (save_orders df Written)) =
    (empty_frame, [StError (load_error_msg DATA_FILE Dict_not_implemented)]).
Proof.
  intros H. cbn [save_orders fst]. apply load_raises; [reflexivity|].
  cbn [to_csv read_csv]. now rewrite convert_rows_written.
Qed.

End Load.

(** C6, as the code has it.  [load_orders] returns an empty order log and
    shows nothing when the data file does not exist.  It falls back to an
    empty order log with an error message exactly when the file exists, is
    not empty and reading it raises; the message carries the details of
    that exception.  A file that exists, is not empty and is read without
    raising is returned as it was read, with no message, whether or not it
    is a sound order log. *)
Theorem C6_load_falls_back_exactly_when_reading_raises :
  forall DATA_FILE build_frame,
    load_orders DATA_FILE build_frame None = (empty_frame, []) /\
    (forall disk e,
       spec_unreadable build_frame disk e ->
       (exists f, disk = Some f /\ has_content f = true) ->
       load_orders DATA_FILE build_frame disk =
         (empty_frame, [StError (load_error_msg DATA_FILE e)])) /\
    (forall disk,
       snd (load_orders DATA_FILE build_frame disk) <> [] ->
       exists e,
         spec_unreadable build_frame disk e /\
         (exists f, disk = Some f /\ has_content f = true) /\
         load_orders DATA_FILE build_frame disk =
           (empty_frame, [StError (load_error_msg DATA_FILE e)])) /\
    (forall f frame,
       has_content f = true ->
       read_csv build_frame f = Ok frame ->
       load_orders DATA_FILE build_frame (Some f) = (frame, [])).
Proof.
  intros F bf. split; [reflexivity|]. split; [|split].
  - intros disk e [f [-> Hr]] [f' [Hf Hc]].
    injection Hf as <-. now apply load_raises.
  - intros disk H.
    destruct (load_message_needs_content F bf disk H) as (f & -> & Hc).
    destruct (read_csv bf f) as [frame|e] eqn:Hr.
    + unfold load_orders in H. rewrite Hc, Hr in H. now destruct H.
    + exists e. split; [now exists f|]. split; [now exists f|].
      now apply load_raises.
  - intros f frame Hc Hr. unfold load_orders. now rewrite Hc, Hr.
Qed.

Lemma C6_witness :
  (spec_unreadable Sample.no_frame (Some (Unreadable Sample.garbled)) Sample.garbled /\
   exists f, Some (Unreadable Sample.garbled) = Some f /\ has_content f = true) /\
  load_orders Sample.file_name Sample.no_frame (Some (Unreadable Sample.garbled)) =
    (empty_frame, [StError (load_error_msg Sample.file_name Sample.garbled)]).
Proof.
  assert (Hc : spec_unreadable Sample.no_frame (Some (Unreadable Sample.garbled))
                 Sample.garbled).
  { exists (Unreadable Sample.garbled). split; reflexivity. }
  assert (Hf : exists f, Some (Unreadable Sample.garbled) = Some f /\
                         has_content f = true).
  { exists (Unreadable Sample.garbled). split; reflexivity. }
  split; [split; [exact Hc | exact Hf]|].
  exact (proj1 (proj2 (C6_load_falls_back_exactly_when_reading_raises
                         Sample.file_name Sample.no_frame))
               (Some (Unreadable Sample.garbled)) Sample.garbled Hc Hf).
Defined.

Lemma to_csv_not_zero_bytes : ~ spec_persisted_log ZeroBytes.
Proof. intros [log H]. discriminate H. Qed.

Lemma to_csv_not_other_text (frame : DataFrame) :
  ~ spec_persisted_log (OtherText frame).
Proof. intros [log H]. discriminate H. Qed.

Lemma to_csv_not_odd_row : ~ spec_persisted_log (CsvText [Sample.odd_row]).
Proof.
  intros [log H]. unfold to_csv in H. injection H as H.
  destruct log as [|o log]; [discriminate H|].
  assert (Ho : Sample.odd_row = to_csv_row o) by (cbn [map] in H; congruence).
  apply (f_equal f_Items_Ordered) in Ho.
  cbn [Sample.odd_row f_Items_Ordered to_csv_row] in Ho.
  unfold items_display in Ho. injection Ho as Ho.
  destruct (Items_Ordered o) as [|i items]; discriminate Ho.
Qed.

(** C6 as stated fails, in three ways.  A data file of zero bytes exists,
    is no order log and cannot be read as CSV; a table file whose items
    field is no list of cart lines, and a file that is no order table at
    all, are no order logs either.  [load_orders] shows no message for any
    of them: the first loads as an empty order log, the other two as
    whatever was read. *)
Lemma C6_counterexample_corrupt_files_load_silently :
  (spec_corrupt (Some ZeroBytes) /\
   spec_unreadable Sample.plain_frame (Some ZeroBytes) EmptyDataError /\
   load_orders Sample.file_name Sample.plain_frame (Some ZeroBytes)
     = (empty_frame, [])) /\
  (spec_corrupt (Some (CsvText [Sample.odd_row])) /\
   load_orders Sample.file_name Sample.plain_frame (Some (CsvText [Sample.odd_row]))
     = ([ {| Timestamp := Sample.now; Customer_Name := Sample.name;
             Mobile_Number := Sample.mobile; Items_Ordered := [];
             Total_Price := 800 |} ], [])) /\
  (spec_corrupt (Some (OtherText Sample.stray_frame)) /\
   load_orders Sample.file_name Sample.plain_frame (Some (OtherText Sample.stray_frame))
     = (Sample.stray_frame, [])).
Proof.
  split; [|split].
  - split; [|split; [|reflexivity]].
    + exists ZeroBytes. split; [reflexivity | apply to_csv_not_zero_bytes].
    + exists ZeroBytes. split; reflexivity.
  - split; [|reflexivity].
    exists (CsvText [Sample.odd_row]). split; [reflexivity | apply to_csv_not_odd_row].
  - split; [|reflexivity].
    exists (OtherText Sample.stray_frame).
    split; [reflexivity | apply to_csv_not_other_text].
Qed.

(** C7 at its failing input.  After the sample checkout has appended its
    order and written the data file, [load_orders] on that file does not
    return the order: [pd.eval] raises on the dict displays of the
    [Items Ordered] field, and the result is an empty order log and an
    error message. *)
Theorem C7_load_after_checkout_returns_empty_log :
  forall DATA_FILE build_frame,
    let w' := res_world
                (place_order_and_rerun Sample.now Written Sample.lemonade_items 800
                   Sample.name Sample.mobile Sample.start) in
    order_history (session w') =
      [new_order_row Sample.now Sample.lemonade_items 800 Sample.name Sample.mobile] /\
    data_file w' = Some (to_csv (order_history (session w'))) /\
    load_orders DATA_FILE build_frame (data_file w') =
      (empty_frame, [StError (load_error_msg DATA_FILE Dict_not_implemented)]).
Proof.
  intros F bf w'. split; [reflexivity|]. split; [reflexivity|].
  apply (load_written F bf
           [new_order_row Sample.now Sample.lemonade_items 800 Sample.name Sample.mobile]).
  constructor. discriminate.
Qed.

(** C9.  A data file of zero bytes is treated as a missing one:
    [load_orders] returns an empty order log and shows nothing.  Whenever
    [load_orders] shows a message, the file exists and is not empty. *)
Theorem C9_zero_byte_file_loads_as_missing :
  forall DATA_FILE build_frame,
    load_orders DATA_FILE build_frame (Some ZeroBytes) =
      load_orders DATA_FILE build_frame None /\
    load_orders DATA_FILE build_frame (Some ZeroBytes) = (empty_frame, []) /\
    (forall disk,
       snd (load_orders DATA_FILE build_frame disk) <> [] ->
       exists f, disk = Some f /\ has_content f = true).
Proof.
  intros F bf. split; [reflexivity|]. split; [reflexivity|].
  apply load_message_needs_content.
Qed.

Lemma C9_witness :
  snd (load_orders Sample.file_name Sample.no_frame
         (Some (Unreadable Sample.garbled))) <> [] /\
  exists f, Some (Unreadable Sample.garbled) = Some f /\ has_content f = true.
Proof.
  assert (H : snd (load_orders Sample.file_name Sample.no_frame
                     (Some (Unreadable Sample.garbled))) <> [])
    by (cbn; discriminate).
  split; [exact H|].
  apply (C9_zero_byte_file_loads_as_missing Sample.file_name Sample.no_frame).
  exact H.
Defined.

(** ** Sales analytics *)

Lemma fold_add_from (l : list Z) (a : Z) :
  fold_left Z.add l a = a + fold_left Z.add l 0.
Proof.
  revert a. induction l as [|x l IH]; intros a; cbn [fold_left].
  - lia.
  - rewrite (IH (a + x)), (IH (0 + x)). lia.
Qed.

Lemma py_sum_cons (x : Z) (l : list Z) : py_sum (x :: l) = x + py_sum l.
Proof.
  unfold py_sum. cbn [fold_left]. rewrite fold_add_from. lia.
Qed.

Lemma py_sum_app (l1 l2 : list Z) : py_sum (l1 ++ l2) = py_sum l1 + py_sum l2.
Proof.
  induction l1 as [|x l1 IH].
  - reflexivity.
  - rewrite <- app_comm_cons, !py_sum_cons, IH. lia.
Qed.

Lemma revenue_is_sum (h : DataFrame) :
  py_sum (map Total_Price h) = spec_grossRevenue h.
Proof.
  induction h as [|o h IH].
  - reflexivity.
  - cbn [map spec_grossRevenue]. now rewrite py_sum_cons, IH.
Qed.

Lemma quantity_is_sum (items : list item) :
  py_sum (map Quantity items) = spec_quantity items.
Proof.
  induction items as [|i items IH].
  - reflexivity.
  - cbn [map spec_quantity]. now rewrite py_sum_cons, IH.
Qed.

Lemma items_sold_is_sum (h : DataFrame) :
  py_sum (flat_map (fun cart => map Quantity cart) (map Items_Ordered h))
  = spec_totalItemsSold h.
Proof.
  induction h as [|o h IH].
  - reflexivity.
  - cbn [map flat_map spec_totalItemsSold].
    now rewrite py_sum_app, quantity_is_sum, IH.
Qed.

(** C8, as the code has it.  For every order log that is not empty the
    analytics tab shows Total Transactions = the number of rows, Gross
    Revenue = the sum of the total prices (formatted with two decimals)
    and Total Items Sold = the sum of the quantities over all items of all
    rows.  For an empty order log it shows no figures, only the note that
    orders unlock the analytics. *)
Theorem C8_analytics_of_nonempty_log :
  forall history,
    (history <> [] ->
     tab2 history =
       [ StSubheader (lit "Quick Sales Summary");
         StMetric (lit "Total Transactions") (MInt (Z.of_nat (List.length history)));
         StMetric (lit "Gross Revenue")
                  (MStr (lit "$" ++ fmt2f (spec_grossRevenue history)));
         StMetric (lit "Total Items Sold") (MInt (spec_totalItemsSold history)) ]) /\
    tab2 [] = [ StInfo (lit "Place orders to unlock sales analytics!") ].
Proof.
  intros h. split; [|reflexivity].
  intros Hne. unfold tab2.
  destruct h as [|o h]; [congruence|].
  cbn [df_empty negb].
  now rewrite revenue_is_sum, items_sold_is_sum.
Qed.

Lemma C8_witness :
  [new_order_row Sample.now Sample.lemonade_items 800 Sample.name Sample.mobile] <> [] /\
  tab2 [new_order_row Sample.now Sample.lemonade_items 800 Sample.name Sample.mobile] =
    [ StSubheader (lit "Quick Sales Summary");
      StMetric (lit "Total Transactions") (MInt 1);
      StMetric (lit "Gross Revenue") (MStr (lit "$8.00"));
      StMetric (lit "Total Items Sold") (MInt 2) ].
Proof.
  split; [discriminate|].
  apply (C8_analytics_of_nonempty_log
           [new_order_row Sample.now Sample.lemonade_items 800 Sample.name Sample.mobile]).
  discriminate.
Defined.

(** C8 as stated fails: for the empty order log the analytics tab reports
    no Total Transactions, Gross Revenue or Total Items Sold at all. *)
Lemma C8_counterexample_empty_log_shows_no_metrics :
  ~ In (StMetric (lit "Total Transactions") (MInt 0)) (tab2 []) /\
  ~ In (StMetric (lit "Gross Revenue") (MStr (lit "$0.00"))) (tab2 []) /\
  ~ In (StMetric (lit "Total Items Sold") (MInt 0)) (tab2 []).
Proof.
  repeat split; intros [H|[]]; discriminate H.
Qed.

(** ** Clearing the cart *)

Lemma eqb_refl (a : pystr) : PyStr.eqb a a = true.
Proof. now apply eqb_eq. Qed.

Lemma dict_get_set_same {V} (d : dict V) (k : pystr) (v : V) :
  dict_get (dict_set d k v) k = Some v.
Proof.
  induction d as [|[k' v'] d IH]; cbn [dict_set dict_get].
  - now rewrite eqb_refl.
  - destruct (PyStr.eqb k' k) eqn:E; cbn [dict_get]; rewrite E; auto.
Qed.

Lemma dict_get_set_other {V} (d : dict V) (k k' : pystr) (v : V) :
  k <> k' -> dict_get (dict_set d k v) k' = dict_get d k'.
Proof.
  intros Hne. induction d as [|[k0 v0] d IH]; cbn [dict_set dict_get].
  - destruct (PyStr.eqb k k') eqn:E; [|reflexivity].
    apply eqb_eq in E. contradiction.
  - destruct (PyStr.eqb k0 k) eqn:E; cbn [dict_get].
    + apply eqb_eq in E. subst k0.
      destruct (PyStr.eqb k k') eqn:E'; [|reflexivity].
      apply eqb_eq in E'. contradiction.
    + destruct (PyStr.eqb k0 k'); [reflexivity | exact IH].
Qed.

Lemma dict_set_keeps_zero (d : dict Z) (k name : pystr) :
  dict_get d name = Some 0 -> dict_get (dict_set d k 0) name = Some 0.
Proof.
  intros H. destruct (PyStr.eqb k name) eqn:E.
  - apply eqb_eq in E. subst. apply dict_get_set_same.
  - rewrite dict_get_set_other; [exact H|].
    intros ->. now rewrite eqb_refl in E.
Qed.

Lemma reset_loop_keeps_zero (names : list pystr) (d : dict Z) (name : pystr) :
  dict_get d name = Some 0 ->
  dict_get (fold_left (fun d n => dict_set d n 0) names d) name = Some 0.
Proof.
  revert d. induction names as [|n names IH]; intros d H; cbn [fold_left].
  - exact H.
  - apply IH. now apply dict_set_keeps_zero.
Qed.

Lemma reset_loop_zeroes (names : list pystr) (d : dict Z) (name : pystr) :
  In name names ->
  dict_get (fold_left (fun d n => dict_set d n 0) names d) name = Some 0.
Proof.
  revert d. induction names as [|n names IH]; intros d Hin; cbn [fold_left].
  - destruct Hin.
  - destruct Hin as [->|Hin].
    + apply reset_loop_keeps_zero, dict_get_set_same.
    + now apply IH.
Qed.

Lemma clear_cart_cleared (s : session_state) : cleared (fst (clear_cart s)).
Proof.
  unfold cleared, clear_cart. cbn [fst cart input_qty customer_name_input
                                   mobile_number_input].
  split; [reflexivity|]. split.
  - unfold zero_cart. apply Forall_forall. intros kv Hin.
    apply in_map_iff in Hin as [p [<- _]]. reflexivity.
  - split; [|split; reflexivity].
    intros name Hin. now apply reset_loop_zeroes.
Qed.

(** C10.  [clear_cart] sets every product's quantity to 0, in the cart and
    in the quantity widgets, and sets the customer name and mobile number
    inputs to the empty string; a checkout that succeeds ends in that same
    state. *)
Theorem C10_clear_cart_resets_quantities_and_customer_fields :
  (forall s, cleared (fst (clear_cart s))) /\
  (forall now wo cart_details total_price name mobile w,
     res_outcome (place_order_and_rerun now wo cart_details total_price name mobile w)
       = Rerun ->
     cleared (session (res_world
       (place_order_and_rerun now wo cart_details total_price name mobile w)))).
Proof.
  split; [apply clear_cart_cleared|].
  intros now wo items total name mobile w H.
  destruct (checkout_paths now wo items total name mobile w)
    as [[_ E]|[(_ & _ & E)|[(_ & _ & _ & E)|(Hn & Hm & Ht & _ & _)]]];
    try (rewrite E in H; discriminate H).
  rewrite (checkout_accepted now wo items total name mobile w Hn Hm Ht) in *.
  destruct wo as [|e remains]; [|discriminate H].
  apply clear_cart_cleared.
Qed.

Lemma C10_witness :
  res_outcome (place_order_and_rerun Sample.now Written Sample.lemonade_items 800
                 Sample.name Sample.mobile Sample.start) = Rerun /\
  cleared (session (res_world
    (place_order_and_rerun Sample.now Written Sample.lemonade_items 800
       Sample.name Sample.mobile Sample.start))).
Proof.
  split; [reflexivity|].
  apply (C10_clear_cart_resets_quantities_and_customer_fields).
  reflexivity.
Defined.

(** ** The cart loop of the main script *)

Lemma dict_get_In {V} (d : dict V) (k : pystr) (v : V) :
  dict_get d k = Some v -> In (k, v) d.
Proof.
  induction d as [|[k' v'] d IH]; cbn [dict_get]; [discriminate|].
  destruct (PyStr.eqb k' k) eqn:E.
  - intros H. injection H as ->. apply eqb_eq in E. subst. now left.
  - intros H. right. now apply IH.
Qed.

Lemma catalog_prices_positive (name : pystr) (p : product) :
  dict_get PRODUCTS name = Some p -> 0 < price p.
Proof.
  intros H. apply dict_get_In in H.
  assert (Hall : Forall (fun kv => 0 < price (snd kv)) PRODUCTS).
  { unfold PRODUCTS. repeat constructor. }
  rewrite Forall_forall in Hall. exact (Hall _ H).
Qed.

Lemma lines_value_app (a b : list item) :
  lines_value (a ++ b) = lines_value a + lines_value b.
Proof.
  induction a as [|i a IH]; cbn [app lines_value]; [reflexivity|].
  rewrite IH. lia.
Qed.

(** What one pass of the loop adds to [cart_items] and [cart_total]. *)
Lemma cart_loop_adds (c : dict Z) :
  forall items0 total0 items total,
    cart_loop c items0 total0 = Some (items, total) ->
    exists added,
      items = items0 ++ added /\
      map (fun i => (Item i, Quantity i)) added = positive_entries c /\
      Forall line_of_catalog added /\
      total = total0 + lines_value added.
Proof.
  induction c as [|[name qty] c IH]; intros items0 total0 items total H.
  - cbn in H. injection H as <- <-. exists []. rewrite app_nil_r.
    repeat split; [constructor | cbn; lia].
  - cbn [cart_loop] in H. unfold positive_entries. cbn [filter snd].
    destruct (0 <? qty) eqn:Hq.
    + destruct (dict_get PRODUCTS name) as [p|] eqn:Hp; [|discriminate].
      apply IH in H as (added & -> & Hm & Hl & ->).
      exists ({| Item := name; Quantity := qty;
                 Price := lit "$" ++ fmt2f (price p);
                 Line_Total := lit "$" ++ fmt2f (qty * price p) |} :: added).
      split; [now rewrite <- app_assoc|]. split.
      * cbn [map Item Quantity]. now rewrite Hm.
      * split.
        -- constructor; [|exact Hl]. exists p. cbn. auto.
        -- cbn [lines_value Item Quantity]. unfold catalog_price at 1.
           rewrite Hp. lia.
    + apply IH in H as (added & -> & Hm & Hl & ->).
      exists added. auto.
Qed.

Lemma cart_summary_adds (c : dict Z) (items : list item) (total : Z) :
  cart_summary c = Some (items, total) ->
  map (fun i => (Item i, Quantity i)) items = positive_entries c /\
  Forall line_of_catalog items /\
  total = lines_value items.
Proof.
  intros H. apply cart_loop_adds in H as (added & -> & Hm & Hl & ->).
  cbn [app]. repeat split; auto.
Qed.

Lemma positive_entries_positive (c : dict Z) (kv : pystr * Z) :
  In kv (positive_entries c) -> 0 < snd kv.
Proof.
  unfold positive_entries. intros H. apply filter_In in H as [_ H].
  now apply Z.ltb_lt.
Qed.

Lemma lines_quantity_positive (c : dict Z) (items : list item) :
  map (fun i => (Item i, Quantity i)) items = positive_entries c ->
  Forall (fun i => 0 < Quantity i) items.
Proof.
  intros Hm. apply Forall_forall. intros i Hi.
  apply (positive_entries_positive c (Item i, Quantity i)).
  rewrite <- Hm. now apply (in_map (fun i => (Item i, Quantity i))).
Qed.

Lemma lines_value_bounds (items : list item) :
  Forall (fun i => 0 < Quantity i) items ->
  Forall line_of_catalog items ->
  0 <= lines_value items /\ (items <> [] -> 0 < lines_value items).
Proof.
  induction items as [|i items IH]; intros Hq Hl.
  - cbn. split; [lia | congruence].
  - inversion Hq as [|? ? Hqi Hq']; inversion Hl as [|? ? Hli Hl']; subst.
    destruct (IH Hq' Hl') as [IH0 _].
    destruct Hli as (p & Hp & _ & _).
    assert (0 < Quantity i * catalog_price (Item i)).
    { unfold catalog_price. rewrite Hp.
      apply Z.mul_pos_pos; [exact Hqi | now apply (catalog_prices_positive (Item i))]. }
    cbn [lines_value]. split; [lia | intros _; lia].
Qed.

(** The cart lines are the cart entries with a positive quantity, in cart
    order, each with the catalog price and the line total formatted to two
    decimals; unknown names and quantities of 0 or less give no line. *)
Theorem cart_lines_are_the_positive_entries :
  forall c items total,
    cart_summary c = Some (items, total) ->
    map (fun i => (Item i, Quantity i)) items = positive_entries c /\
    Forall (fun i => 0 < Quantity i) items /\
    Forall line_of_catalog items.
Proof.
  intros c items total H.
  apply cart_summary_adds in H as (Hm & Hl & _).
  split; [exact Hm|]. split; [|exact Hl].
  now apply (lines_quantity_positive c).
Qed.

Lemma cart_lines_are_the_positive_entries_witness :
  cart_summary Sample.lemonade_cart = Some (Sample.lemonade_items, 800) /\
  map (fun i => (Item i, Quantity i)) Sample.lemonade_items
    = positive_entries Sample.lemonade_cart.
Proof.
  split; [reflexivity|].
  apply (cart_lines_are_the_positive_entries
           Sample.lemonade_cart Sample.lemonade_items 800).
  reflexivity.
Defined.

(** The cart total is the sum over the cart lines of quantity times
    catalog unit price. *)
Theorem cart_total_is_sum_of_line_totals :
  forall c items total,
    cart_summary c = Some (items, total) ->
    total = lines_value items.
Proof.
  intros c items total H. now apply cart_summary_adds in H.
Qed.

Lemma cart_total_is_sum_of_line_totals_witness :
  cart_summary Sample.lemonade_cart = Some (Sample.lemonade_items, 800) /\
  800 = lines_value Sample.lemonade_items.
Proof.
  split; [reflexivity|].
  apply (cart_total_is_sum_of_line_totals Sample.lemonade_cart).
  reflexivity.
Defined.

Lemma cart_loop_fails_iff (c : dict Z) :
  forall items0 total0,
    cart_loop c items0 total0 = None <->
    exists name qty,
      In (name, qty) c /\ 0 < qty /\ dict_get PRODUCTS name = None.
Proof.
  induction c as [|[name qty] c IH]; intros items0 total0; cbn [cart_loop].
  - split; [discriminate|]. intros (n & q & [] & _).
  - destruct (0 <? qty) eqn:Hq.
    + destruct (dict_get PRODUCTS name) as [p|] eqn:Hp.
      * rewrite IH. split.
        -- intros (n & q & Hin & H). exists n, q. split; [now right | exact H].
        -- intros (n & q & [Heq|Hin] & Hpos & Hnone).
           ++ injection Heq as <- <-. congruence.
           ++ exists n, q. auto.
      * split; [|reflexivity]. intros _. exists name, qty.
        split; [now left|]. split; [now apply Z.ltb_lt | exact Hp].
    + rewrite IH. split.
      * intros (n & q & Hin & H). exists n, q. split; [now right | exact H].
      * intros (n & q & [Heq|Hin] & Hpos & Hnone).
        -- injection Heq as <- <-. apply Z.ltb_ge in Hq. lia.
        -- exists n, q. auto.
Qed.

(** The lookup [PRODUCTS[name]] of the cart loop fails exactly when the
    cart holds a positive quantity for a name that is not in the catalog;
    an unknown name with quantity 0 is skipped without a lookup. *)
Theorem cart_loop_key_error_iff_unknown_product_in_cart :
  forall c,
    cart_summary c = None <->
    exists name qty,
      In (name, qty) c /\ 0 < qty /\ dict_get PRODUCTS name = None.
Proof.
  intros c. apply cart_loop_fails_iff.
Qed.

Lemma summary_total_positive (c : dict Z) (x : item) (items : list item) (total : Z) :
  cart_summary c = Some (x :: items, total) -> 0 < total.
Proof.
  intros H. apply cart_summary_adds in H as (Hm & Hl & ->).
  apply lines_value_bounds; [now apply (lines_quantity_positive c) | exact Hl | discriminate].
Qed.

Lemma EmptyCart_needs_no_total now wo items total name mobile w :
  EmptyCart (place_order_and_rerun now wo items total name mobile w) ->
  total <= 0.
Proof.
  intros [Hev Hout].
  destruct (checkout_paths now wo items total name mobile w)
    as [[_ E]|[(_ & _ & E)|[(_ & _ & Ht & _)|(_ & _ & _ & N & _)]]].
  - rewrite E in Hev. injection Hev as Hm.
    now destruct msg_MissingName_EmptyCart.
  - rewrite E in Hev. injection Hev as Hm.
    now destruct msg_InvalidMobile_EmptyCart.
  - exact Ht.
  - contradiction.
Qed.

(** A click on the checkout button never ends in [EmptyCart]: the button
    is drawn only when there is a cart line, and then the total the
    callback receives is above 0. *)
Theorem checkout_button_never_gives_EmptyCart :
  forall now wo name mobile w r,
    checkout_click now wo name mobile w = Some r ->
    ~ EmptyCart r.
Proof.
  intros now wo name mobile w r H He. unfold checkout_click in H.
  destruct (cart_summary (cart (session w))) as [[[|x items] total]|] eqn:Hs;
    try discriminate H.
  injection H as <-.
  apply EmptyCart_needs_no_total in He.
  apply summary_total_positive in Hs. lia.
Qed.

Lemma checkout_button_never_gives_EmptyCart_witness :
  checkout_click Sample.now Written Sample.name Sample.mobile Sample.start
    = Some (place_order_and_rerun Sample.now Written Sample.lemonade_items 800
              Sample.name Sample.mobile Sample.start) /\
  ~ EmptyCart (place_order_and_rerun Sample.now Written Sample.lemonade_items 800
                 Sample.name Sample.mobile Sample.start).
Proof.
  split; [reflexivity|].
  apply (checkout_button_never_gives_EmptyCart
           Sample.now Written Sample.name Sample.mobile Sample.start).
  reflexivity.
Defined.

(** The cart total is never negative, and it is 0 exactly when there is
    no cart line, that is when no cart entry has a positive quantity. *)
Theorem cart_total_zero_iff_no_lines :
  forall c items total,
    cart_summary c = Some (items, total) ->
    0 <= total /\
    (total = 0 <-> items = []) /\
    (items = [] <-> positive_entries c = []).
Proof.
  intros c items total H.
  apply cart_summary_adds in H as (Hm & Hl & ->).
  pose proof (lines_value_bounds items (lines_quantity_positive c items Hm) Hl)
    as [H0 Hpos].
  split; [exact H0|]. split.
  - split.
    + intros Hz. destruct items as [|i items]; [reflexivity|].
      assert (0 < lines_value (i :: items)) by (apply Hpos; discriminate). lia.
    + intros ->. reflexivity.
  - rewrite <- Hm. split.
    + intros ->. reflexivity.
    + intros Hn. destruct items; [reflexivity | discriminate Hn].
Qed.

Lemma cart_total_zero_iff_no_lines_witness :
  cart_summary zero_cart = Some ([], 0) /\ 0 <= 0.
Proof.
  split; [reflexivity|].
  apply (cart_total_zero_iff_no_lines zero_cart [] 0).
  reflexivity.
Defined.

Lemma catalog_price_nonneg (name : pystr) : 0 <= catalog_price name.
Proof.
  unfold catalog_price. destruct (dict_get PRODUCTS name) as [p|] eqn:Hp; [|lia].
  apply catalog_prices_positive in Hp. lia.
Qed.

Lemma lines_value_entries (items : list item) :
  lines_value items = entries_value (map (fun i => (Item i, Quantity i)) items).
Proof.
  induction items as [|i items IH]; cbn [map lines_value entries_value];
    [reflexivity | now rewrite IH].
Qed.

Lemma positive_entries_value_bounds (c : dict Z) :
  in_range c ->
  0 <= entries_value (positive_entries c) <= MAX_QTY * price_mass (dict_keys c).
Proof.
  unfold in_range, positive_entries, MAX_QTY.
  induction c as [|[name qty] c IH]; intros Hr.
  - cbn. lia.
  - inversion Hr as [|? ? Hq Hr']; subst. cbn [snd] in Hq.
    specialize (IH Hr'). pose proof (catalog_price_nonneg name) as Hp.
    cbn [filter snd dict_keys map fst price_mass].
    change (map fst c) with (dict_keys c).
    destruct (0 <? qty); cbn [entries_value]; nia.
Qed.

Lemma dict_get_of_key {V} (d : dict V) (k : pystr) :
  In k (dict_keys d) -> exists v, dict_get d k = Some v.
Proof.
  induction d as [|[k' v'] d IH]; cbn [dict_keys map fst In dict_get]; [intros []|].
  destruct (PyStr.eqb k' k) eqn:E.
  - intros _. now exists v'.
  - intros [->|Hin]; [now rewrite eqb_refl in E | now apply IH].
Qed.

Lemma cart_wf_summary (c : dict Z) :
  cart_wf c -> exists items total, cart_summary c = Some (items, total).
Proof.
  intros Hwf. destruct (cart_summary c) as [[items total]|] eqn:Hs.
  - now exists items, total.
  - apply cart_loop_fails_iff in Hs as (name & qty & Hin & _ & Hnone).
    assert (Hk : In name (dict_keys PRODUCTS)).
    { rewrite <- Hwf. now apply (in_map fst) in Hin. }
    apply dict_get_of_key in Hk as [p Hp]. congruence.
Qed.

(** With the catalog's product names as keys and every quantity within
    the widget bounds 0..MAX_QTY, the cart loop finds every price and the
    cart total lies between 0 and 338.00, which is MAX_QTY of every
    product. *)
Theorem cart_total_bounded_by_widget_range :
  forall c,
    cart_wf c -> in_range c ->
    exists items total,
      cart_summary c = Some (items, total) /\ 0 <= total <= 33800.
Proof.
  intros c Hwf Hr.
  destruct (cart_wf_summary c Hwf) as (items & total & Hs).
  exists items, total. split; [exact Hs|].
  apply cart_summary_adds in Hs as (Hm & _ & ->).
  rewrite lines_value_entries, Hm.
  pose proof (positive_entries_value_bounds c Hr) as Hb.
  rewrite Hwf in Hb. exact Hb.
Qed.

Lemma cart_total_bounded_by_widget_range_witness :
  (cart_wf Sample.lemonade_cart /\ in_range Sample.lemonade_cart) /\
  exists items total,
    cart_summary Sample.lemonade_cart = Some (items, total) /\ 0 <= total <= 33800.
Proof.
  assert (Hwf : cart_wf Sample.lemonade_cart) by reflexivity.
  assert (Hr : in_range Sample.lemonade_cart).
  { unfold in_range, MAX_QTY. repeat constructor; cbn; lia. }
  split; [split; [exact Hwf | exact Hr]|].
  apply (cart_total_bounded_by_widget_range Sample.lemonade_cart Hwf Hr).
Defined.

(** ** Session start *)

Lemma init_step_keeps (d : dict Z) (name k : pystr) (v : Z) :
  dict_get d k = Some v ->
  dict_get (match dict_get d name with
            | Some _ => d
            | None => dict_set d name 0
            end) k = Some v.
Proof.
  intros H. destruct (dict_get d name) eqn:E; [exact H|].
  rewrite dict_get_set_other; [exact H|]. intros ->. congruence.
Qed.

Lemma init_loop_keeps (names : list pystr) (d : dict Z) (k : pystr) (v : Z) :
  dict_get d k = Some v ->
  dict_get (fold_left (fun d name =>
                         match dict_get d name with
                         | Some _ => d
                         | None => dict_set d name 0
                         end) names d) k = Some v.
Proof.
  revert d. induction names as [|n names IH]; intros d H; cbn [fold_left].
  - exact H.
  - apply IH. now apply init_step_keeps.
Qed.

Lemma init_loop_fills (names : list pystr) (d : dict Z) (k : pystr) :
  In k names ->
  dict_get (fold_left (fun d name =>
                         match dict_get d name with
                         | Some _ => d
                         | None => dict_set d name 0
                         end) names d) k
  = Some (match dict_get d k with Some v => v | None => 0 end).
Proof.
  revert d. induction names as [|n names IH]; intros d Hin; cbn [fold_left].
  - destruct Hin.
  - destruct (dict_get d k) as [v|] eqn:Hk.
    + apply init_loop_keeps. now apply init_step_keeps.
    + destruct Hin as [->|Hin].
      * apply init_loop_keeps. rewrite Hk. apply dict_get_set_same.
      * destruct (PyStr.eqb n k) eqn:E.
        -- apply eqb_eq in E. subst n.
           apply init_loop_keeps. rewrite Hk. apply dict_get_set_same.
        -- rewrite (IH _ Hin).
           assert (Hn : n <> k) by (intros ->; now rewrite eqb_refl in E).
           destruct (dict_get d n); [now rewrite Hk|].
           now rewrite (dict_get_set_other d n k 0 Hn), Hk.
Qed.

Lemma init_loop_done (names : list pystr) (d : dict Z) :
  (forall n, In n names -> dict_get d n <> None) ->
  fold_left (fun d name =>
               match dict_get d name with
               | Some _ => d
               | None => dict_set d name 0
               end) names d = d.
Proof.
  induction names as [|n names IH]; intros H; cbn [fold_left]; [reflexivity|].
  destruct (dict_get d n) eqn:E.
  - apply IH. intros m Hm. apply H. now right.
  - destruct (H n); [now left | exact E].
Qed.

(** The start of a script run never overwrites a quantity widget: a key
    that is in the session state keeps its value, and every product whose
    key is missing gets the value 0. *)
Theorem init_input_keys_fills_missing_keys_only :
  forall d,
    (forall k v, dict_get d k = Some v -> dict_get (init_input_keys d) k = Some v) /\
    (forall name,
       In name (dict_keys PRODUCTS) ->
       dict_get (init_input_keys d) name
       = Some (match dict_get d name with Some v => v | None => 0 end)).
Proof.
  intros d. split.
  - intros k v. apply init_loop_keeps.
  - intros name. apply init_loop_fills.
Qed.

Lemma init_input_keys_fills_missing_keys_only_witness :
  dict_get [(lit "Classic Lemonade", 3)] (lit "Classic Lemonade") = Some 3 /\
  dict_get (init_input_keys [(lit "Classic Lemonade", 3)]) (lit "Classic Lemonade")
    = Some 3.
Proof.
  split; [reflexivity|].
  exact (proj1 (init_input_keys_fills_missing_keys_only [(lit "Classic Lemonade", 3)])
               (lit "Classic Lemonade") 3 eq_refl).
Defined.

(** The session state initialisation at the start of a script run, on a
    session that is already set up, changes nothing and shows nothing:
    the order log is not loaded from the data file again, whatever the
    file holds, and the cart and the widget values are not reset.  (The
    product menu that follows it in the run is a separate step.) *)
Theorem session_init_keeps_set_up_state :
  forall DATA_FILE build_frame disk s,
    (forall name, In name (dict_keys PRODUCTS) -> dict_get (input_qty s) name <> None) ->
    init_state DATA_FILE build_frame disk (to_raw s) = (s, []).
Proof.
  intros F bf disk s H. unfold init_state, to_raw, init_input_keys.
  cbn [raw_order_history raw_cart raw_input_qty raw_customer_name_input
       raw_mobile_number_input].
  rewrite (init_loop_done _ _ H). now destruct s.
Qed.

Lemma session_init_keeps_set_up_state_witness :
  init_state Sample.file_name Sample.no_frame
    (Some (Unreadable Sample.garbled)) (to_raw (session Sample.start))
  = (session Sample.start, []).
Proof.
  apply (session_init_keeps_set_up_state Sample.file_name Sample.no_frame).
  intros name Hin.
  destruct (dict_get_of_key Sample.lemonade_cart name Hin) as [v Hv].
  cbn [session input_qty Sample.start]. rewrite Hv. discriminate.
Defined.

(** ** The product menu *)

Lemma dict_set_keys {V} (d : dict V) (k : pystr) (v : V) :
  In k (dict_keys d) -> dict_keys (dict_set d k v) = dict_keys d.
Proof.
  induction d as [|[k' v'] d IH]; cbn [dict_keys map fst In dict_set]; [intros []|].
  destruct (PyStr.eqb k' k) eqn:E; [reflexivity|].
  intros [->|Hin]; [now rewrite eqb_refl in E|].
  cbn [map fst]. f_equal. now apply IH.
Qed.

Lemma product_names_distinct : NoDup (dict_keys PRODUCTS).
Proof.
  assert (H : forall a b, PyStr.eqb a b = false -> a <> b).
  { intros a b E ->. now rewrite eqb_refl in E. }
  unfold PRODUCTS, dict_keys. cbn [map fst].
  repeat (constructor;
          [cbn [In]; intros Hin;
           repeat (destruct Hin as [Hin|Hin];
                   [revert Hin; apply H; reflexivity|]);
           exact Hin|]).
  constructor.
Qed.

Lemma number_input_in_range (v : Z) :
  0 <= v <= MAX_QTY -> number_input v = v.
Proof.
  intros [Hlo Hhi]. unfold number_input.
  apply Z.leb_le in Hlo, Hhi. now rewrite Hlo, Hhi.
Qed.

Lemma number_input_bounds (v : Z) : 0 <= number_input v <= MAX_QTY.
Proof.
  unfold number_input.
  destruct ((0 <=? v) && (v <=? MAX_QTY)) eqn:E.
  - apply andb_true_iff in E as [Hlo Hhi]. apply Z.leb_le in Hlo, Hhi. lia.
  - unfold MAX_QTY. lia.
Qed.

Lemma number_input_out_of_range (v : Z) :
  ~ 0 <= v <= MAX_QTY -> number_input v = 0.
Proof.
  intros H. unfold number_input.
  destruct ((0 <=? v) && (v <=? MAX_QTY)) eqn:E; [|reflexivity].
  apply andb_true_iff in E as [Hlo Hhi]. apply Z.leb_le in Hlo, Hhi. lia.
Qed.

Lemma dict_set_present {V} (d : dict V) (k n : pystr) (v : V) :
  dict_get d n <> None -> dict_get (dict_set d k v) n <> None.
Proof.
  intros H. destruct (PyStr.eqb k n) eqn:E.
  - apply eqb_eq in E. subst. rewrite dict_get_set_same. discriminate.
  - rewrite dict_get_set_other; [exact H|].
    intros ->. now rewrite eqb_refl in E.
Qed.

Lemma dict_get_key {V} (d : dict V) (k : pystr) (v : V) :
  dict_get d k = Some v -> In k (dict_keys d).
Proof.
  intros H. apply dict_get_In in H. now apply (in_map fst) in H.
Qed.

Lemma menu_loop_runs (names : list pystr) :
  forall s,
    (forall n, In n names -> dict_get (input_qty s) n <> None) ->
    exists s', menu_loop names s = Some s'.
Proof.
  induction names as [|n names IH]; intros s H; cbn [menu_loop].
  - now exists s.
  - destruct (dict_get (input_qty s) n) as [stored|] eqn:E.
    + apply IH. intros m Hm. cbn [set_cart set_input_qty input_qty].
      apply dict_set_present. apply H. now right.
    + destruct (H n); [now left | exact E].
Qed.

Lemma menu_loop_copies (names : list pystr) :
  forall s s',
    NoDup names ->
    menu_loop names s = Some s' ->
    order_history s' = order_history s /\
    customer_name_input s' = customer_name_input s /\
    mobile_number_input s' = mobile_number_input s /\
    (forall n, In n names ->
       exists stored,
         dict_get (input_qty s) n = Some stored /\
         dict_get (input_qty s') n = Some (number_input stored) /\
         dict_get (cart s') n = Some (number_input stored)) /\
    (forall n, ~ In n names ->
       dict_get (input_qty s') n = dict_get (input_qty s) n /\
       dict_get (cart s') n = dict_get (cart s) n) /\
    dict_keys (input_qty s') = dict_keys (input_qty s) /\
    ((forall n, In n names -> In n (dict_keys (cart s))) ->
     dict_keys (cart s') = dict_keys (cart s)).
Proof.
  induction names as [|a names IH]; intros s s' Hnd H; cbn [menu_loop] in H.
  - injection H as <-. repeat split; auto. intros n [].
  - destruct (dict_get (input_qty s) a) as [stored|] eqn:Ea; [|discriminate].
    inversion Hnd as [|? ? Hnot Hnd']; subst.
    apply (IH _ _ Hnd') in H as (Hh & Hc & Hm & Hin & Hout & Hik & Hck).
    cbn [set_cart set_input_qty order_history input_qty customer_name_input
         mobile_number_input cart] in *.
    split; [exact Hh|]. split; [exact Hc|]. split; [exact Hm|].
    split; [|split; [|split]].
    + intros n [<-|Hn].
      * exists stored. split; [exact Ea|].
        destruct (Hout a Hnot) as [Hi' Hc'].
        now rewrite Hi', Hc', !dict_get_set_same.
      * assert (Hne : a <> n) by (intros ->; contradiction).
        destruct (Hin n Hn) as (st & Hst & Hi' & Hc').
        rewrite (dict_get_set_other _ _ _ _ Hne) in Hst.
        exists st. auto.
    + intros n Hn.
      assert (Hne : a <> n) by (intros ->; apply Hn; now left).
      destruct (Hout n) as [Hi' Hc']; [intros Hx; apply Hn; now right|].
      now rewrite Hi', Hc', !(dict_get_set_other _ _ _ _ Hne).
    + rewrite Hik. apply dict_set_keys. now apply (dict_get_key _ _ stored).
    + intros Hsub.
      assert (Ha : In a (dict_keys (cart s))) by (apply Hsub; now left).
      rewrite Hck; [now apply dict_set_keys|].
      intros n Hn. rewrite (dict_set_keys _ _ _ Ha). apply Hsub. now right.
Qed.

Lemma product_menu_copies_rows (s s' : session_state) :
  product_menu s = Some s' ->
  (forall name, In name (dict_keys PRODUCTS) ->
     exists stored,
       dict_get (input_qty s) name = Some stored /\
       dict_get (cart s') name = Some (number_input stored)) /\
  (cart_wf (cart s) -> cart_wf (cart s')).
Proof.
  intros H.
  apply (menu_loop_copies _ _ _ product_names_distinct) in H
    as (_ & _ & _ & Hin & _ & _ & Hkeys).
  split.
  - intros name Hn. destruct (Hin name Hn) as (stored & Hst & _ & Hc).
    now exists stored.
  - unfold cart_wf. intros Hwf. rewrite Hkeys; [exact Hwf|].
    intros n Hn. now rewrite Hwf.
Qed.

(** Once the script has set up the session, the product menu finds every
    quantity widget: the lookup of a widget key cannot fail. *)
Theorem product_menu_runs_after_init :
  forall DATA_FILE build_frame disk r,
    exists s',
      product_menu (fst (init_state DATA_FILE build_frame disk r)) = Some s'.
Proof.
  intros F bf disk r. apply menu_loop_runs. intros n Hn.
  unfold init_state.
  destruct (match raw_order_history r with
            | Some h => (h, [])
            | None => load_orders F bf disk
            end) as [h shown].
  cbn [fst input_qty]. unfold init_input_keys.
  rewrite (init_loop_fills _ _ _ Hn). discriminate.
Qed.

(** The product menu leaves under every product's widget key the value
    the quantity widget takes, which is the stored value when that is
    within 0..MAX_QTY and 0 otherwise, and copies that value into the
    cart; the order history, the customer inputs and the keys of other
    widgets are as before, every quantity of a product in the cart ends
    within 0..MAX_QTY, and on a cart with the catalog's names the names
    and their order stay the same. *)
Theorem product_menu_copies_widgets_into_cart :
  forall s s',
    product_menu s = Some s' ->
    order_history s' = order_history s /\
    customer_name_input s' = customer_name_input s /\
    mobile_number_input s' = mobile_number_input s /\
    (forall name,
       In name (dict_keys PRODUCTS) ->
       exists stored,
         dict_get (input_qty s) name = Some stored /\
         dict_get (input_qty s') name = Some (number_input stored) /\
         dict_get (cart s') name = Some (number_input stored) /\
         0 <= number_input stored <= MAX_QTY /\
         (0 <= stored <= MAX_QTY -> number_input stored = stored) /\
         (~ 0 <= stored <= MAX_QTY -> number_input stored = 0)) /\
    (forall name,
       ~ In name (dict_keys PRODUCTS) ->
       dict_get (input_qty s') name = dict_get (input_qty s) name /\
       dict_get (cart s') name = dict_get (cart s) name) /\
    dict_keys (input_qty s') = dict_keys (input_qty s) /\
    (cart_wf (cart s) -> cart_wf (cart s')).
Proof.
  intros s s' H.
  apply (menu_loop_copies _ _ _ product_names_distinct) in H
    as (Hh & Hc & Hm & Hin & Hout & Hik & Hkeys).
  split; [exact Hh|]. split; [exact Hc|]. split; [exact Hm|].
  split; [|split; [exact Hout|split; [exact Hik|]]].
  - intros name Hn. destruct (Hin name Hn) as (stored & Hst & Hi' & Hc').
    exists stored. split; [exact Hst|]. split; [exact Hi'|]. split; [exact Hc'|].
    split; [apply number_input_bounds|].
    split; [apply number_input_in_range | apply number_input_out_of_range].
  - unfold cart_wf. intros Hwf. rewrite Hkeys; [exact Hwf|].
    intros n Hn. now rewrite Hwf.
Qed.

Lemma product_menu_copies_widgets_into_cart_witness :
  match product_menu Sample.crowded with
  | None => False
  | Some s' =>
      exists stored,
        dict_get (input_qty Sample.crowded) (lit "Classic Lemonade") = Some stored /\
        dict_get (input_qty s') (lit "Classic Lemonade") = Some (number_input stored) /\
        dict_get (cart s') (lit "Classic Lemonade") = Some (number_input stored) /\
        0 <= number_input stored <= MAX_QTY /\
        (0 <= stored <= MAX_QTY -> number_input stored = stored) /\
        (~ 0 <= stored <= MAX_QTY -> number_input stored = 0)
  end.
Proof.
  destruct (product_menu Sample.crowded) as [s'|] eqn:E;
    [|vm_compute in E; discriminate E].
  apply (proj1 (proj2 (proj2 (proj2
           (product_menu_copies_widgets_into_cart Sample.crowded s' E))))).
  cbn. now left.
Defined.

Lemma dict_get_unique {V} (d : dict V) (k : pystr) (v : V) :
  NoDup (dict_keys d) -> In (k, v) d -> dict_get d k = Some v.
Proof.
  induction d as [|[k' v'] d IH]; cbn [dict_keys map fst In dict_get]; [intros _ []|].
  intros Hnd [Heq|Hin].
  - injection Heq as -> ->. now rewrite eqb_refl.
  - inversion Hnd as [|? ? Hnot Hnd']; subst.
    destruct (PyStr.eqb k' k) eqn:E.
    + apply eqb_eq in E. subst k'. destruct Hnot.
      now apply (in_map fst) in Hin.
    + now apply IH.
Qed.

(** A change of a quantity widget shows in the cart lines of the next
    script run: a quantity above 0 gives a line for that product with
    that quantity, and the quantity 0 gives no line for it. *)
Theorem quantity_change_shows_in_cart_lines :
  forall name q s s1 s2 items total,
    cart_wf (cart s) ->
    number_input_change name q s = Some s1 ->
    product_menu s1 = Some s2 ->
    cart_summary (cart s2) = Some (items, total) ->
    0 <= q <= MAX_QTY /\
    (0 < q -> In (name, q) (map (fun i => (Item i, Quantity i)) items)) /\
    (q = 0 -> ~ In name (map Item items)).
Proof.
  intros name q s s1 s2 items total Hwf Hch Hmenu Hsum.
  unfold number_input_change in Hch.
  destruct (dict_get PRODUCTS name) as [p|] eqn:Hp; [|discriminate].
  destruct ((0 <=? q) && (q <=? MAX_QTY)) eqn:Hb; [|discriminate].
  injection Hch as <-.
  apply andb_true_iff in Hb as [Hlo Hhi].
  apply Z.leb_le in Hlo, Hhi.
  assert (Hname : In name (dict_keys PRODUCTS)).
  { apply dict_get_In in Hp. now apply (in_map fst) in Hp. }
  apply product_menu_copies_rows in Hmenu as (Hget & Hkeys).
  cbn [set_input_qty input_qty cart] in Hget, Hkeys.
  specialize (Hkeys Hwf).
  assert (Hq : dict_get (cart s2) name = Some q).
  { destruct (Hget name Hname) as (stored & Hst & Hc).
    rewrite dict_get_set_same in Hst. injection Hst as <-.
    rewrite Hc. f_equal. apply number_input_in_range. lia. }
  apply cart_summary_adds in Hsum as (Hm & _ & _).
  split; [lia|]. split.
  - intros Hpos. rewrite Hm. unfold positive_entries.
    apply filter_In. split; [now apply dict_get_In|].
    now apply Z.ltb_lt.
  - intros -> Hin. apply in_map_iff in Hin as (i & Hi & Hin).
    apply (in_map (fun i => (Item i, Quantity i))) in Hin.
    rewrite Hm in Hin. cbn beta in Hin. rewrite Hi in Hin.
    pose proof (positive_entries_positive _ _ Hin) as Hpos. cbn [snd] in Hpos.
    unfold positive_entries in Hin. apply filter_In in Hin as [Hin _].
    apply dict_get_unique in Hin.
    + rewrite Hq in Hin. injection Hin as Hin. lia.
    + unfold cart_wf in Hkeys. rewrite Hkeys. apply product_names_distinct.
Qed.

Lemma quantity_change_shows_in_cart_lines_witness :
  cart_wf (cart (session Sample.start)) /\
  match number_input_change (lit "Strawberry Mint") 3 (session Sample.start) with
  | None => False
  | Some s1 =>
      match product_menu s1 with
      | None => False
      | Some s2 =>
          match cart_summary (cart s2) with
          | None => False
          | Some (items, total) =>
              In (lit "Strawberry Mint", 3)
                 (map (fun i => (Item i, Quantity i)) items)
          end
      end
  end.
Proof.
  assert (Hwf : cart_wf (cart (session Sample.start))) by reflexivity.
  split; [exact Hwf|].
  destruct (number_input_change (lit "Strawberry Mint") 3 (session Sample.start))
    as [s1|] eqn:E1; [|discriminate E1].
  assert (Hs1 : s1 = set_input_qty (session Sample.start)
                       (dict_set (input_qty (session Sample.start))
                                 (lit "Strawberry Mint") 3)).
  { injection E1 as <-. reflexivity. }
  destruct (product_menu s1) as [s2|] eqn:E2;
    [|rewrite Hs1 in E2; vm_compute in E2; discriminate E2].
  destruct (cart_summary (cart s2)) as [[items total]|] eqn:E3.
  - apply (quantity_change_shows_in_cart_lines
             (lit "Strawberry Mint") 3 (session Sample.start) s1 s2 items total
             Hwf E1 E2 E3).
    lia.
  - rewrite Hs1 in E2. vm_compute in E2. injection E2 as <-.
    vm_compute in E3. discriminate E3.
Defined.

(** ** Clearing the cart, continued *)

Lemma dict_set_same_value {V} (d : dict V) (k : pystr) (v : V) :
  dict_get d k = Some v -> dict_set d k v = d.
Proof.
  induction d as [|[k' v'] d IH]; cbn [dict_get dict_set]; [discriminate|].
  destruct (PyStr.eqb k' k) eqn:E.
  - intros H. now injection H as ->.
  - intros H. now rewrite IH.
Qed.

Lemma reset_loop_fixed (names : list pystr) (d : dict Z) :
  (forall n, In n names -> dict_get d n = Some 0) ->
  fold_left (fun d n => dict_set d n 0) names d = d.
Proof.
  induction names as [|n names IH]; intros H; cbn [fold_left]; [reflexivity|].
  rewrite (dict_set_same_value d n 0) by (apply H; now left).
  apply IH. intros m Hm. apply H. now right.
Qed.

(** Clearing a cleared cart changes nothing, and [clear_cart] never
    touches the order log. *)
Theorem clear_cart_is_idempotent_and_keeps_order_log :
  forall s,
    clear_cart (fst (clear_cart s)) = clear_cart s /\
    order_history (fst (clear_cart s)) = order_history s.
Proof.
  intros s. split; [|reflexivity].
  unfold clear_cart. cbn [fst order_history input_qty].
  rewrite (reset_loop_fixed (dict_keys PRODUCTS)
             (fold_left (fun d n => dict_set d n 0) (dict_keys PRODUCTS) (input_qty s))).
  - reflexivity.
  - intros n Hn. now apply reset_loop_zeroes.
Qed.

Lemma cart_loop_skips (c : dict Z) :
  Forall (fun kv => snd kv <= 0) c ->
  forall items total, cart_loop c items total = Some (items, total).
Proof.
  induction 1 as [|[name qty] c Hq _ IH]; intros items total; cbn [cart_loop].
  - reflexivity.
  - cbn [snd] in Hq. apply Z.ltb_ge in Hq. rewrite Hq. apply IH.
Qed.

Lemma menu_loop_in_step (names : list pystr) (s : session_state) :
  (forall n, In n names ->
             exists v, dict_get (input_qty s) n = Some v /\
                       dict_get (cart s) n = Some v /\
                       number_input v = v) ->
  menu_loop names s = Some s.
Proof.
  induction names as [|n names IH]; intros H; cbn [menu_loop]; [reflexivity|].
  destruct (H n (or_introl eq_refl)) as (v & Hi & Hc & Hv).
  rewrite Hi. cbv zeta. rewrite Hv.
  rewrite (dict_set_same_value _ _ _ Hc), (dict_set_same_value _ _ _ Hi).
  replace (set_cart (set_input_qty s (input_qty s)) (cart s)) with s
    by now destruct s.
  apply IH. intros m Hm. apply H. now right.
Qed.

Lemma cleared_cart_entry (s : session_state) (name : pystr) :
  cleared s -> In name (dict_keys PRODUCTS) -> dict_get (cart s) name = Some 0.
Proof.
  intros (Hk & Hz & _) Hn. rewrite <- Hk in Hn.
  destruct (dict_get_of_key _ _ Hn) as [v Hv]. rewrite Hv.
  apply dict_get_In in Hv. rewrite Forall_forall in Hz.
  apply Hz in Hv. cbn [snd] in Hv. now subst.
Qed.

(** In a cleared session the next script run leaves the state as it is,
    finds no cart line and a total of 0, and draws no checkout button: a
    placed order cannot be submitted a second time by another click. *)
Theorem no_checkout_button_after_clear :
  forall s now wo name mobile disk,
    cleared s ->
    product_menu s = Some s /\
    cart_summary (cart s) = Some ([], 0) /\
    checkout_click now wo name mobile {| session := s; data_file := disk |} = None.
Proof.
  intros s now wo name mobile disk Hc.
  assert (Hsum : cart_summary (cart s) = Some ([], 0)).
  { apply cart_loop_skips. destruct Hc as (_ & Hz & _).
    eapply Forall_impl; [|exact Hz]. intros kv ->. lia. }
  split; [|split; [exact Hsum|]].
  - apply menu_loop_in_step. intros n Hn. exists 0. split; [|split].
    + destruct Hc as (_ & _ & Hi & _). now apply Hi.
    + now apply cleared_cart_entry.
    + reflexivity.
  - unfold checkout_click. cbn [session]. now rewrite Hsum.
Qed.

Lemma no_checkout_button_after_clear_witness :
  cleared (fst (clear_cart (session Sample.start))) /\
  checkout_click Sample.now Written Sample.name Sample.mobile
    {| session := fst (clear_cart (session Sample.start)); data_file := None |} = None.
Proof.
  split; [apply clear_cart_cleared|].
  apply (no_checkout_button_after_clear
           (fst (clear_cart (session Sample.start)))
           Sample.now Written Sample.name Sample.mobile None).
  apply clear_cart_cleared.
Defined.

(** ** The order log under checkout *)

(** The callback never removes or changes a row of the order log: the
    log afterwards is the log before, followed by nothing or by the one
    new row. *)
Theorem order_log_is_append_only :
  forall now wo cart_details total_price name mobile w,
    exists suffix,
      order_history (session (res_world
        (place_order_and_rerun now wo cart_details total_price name mobile w)))
      = order_history (session w) ++ suffix /\
      (suffix = [] \/
       suffix = [new_order_row now cart_details total_price name mobile]).
Proof.
  intros now wo items total name mobile w.
  destruct (checkout_paths now wo items total name mobile w)
    as [[_ E]|[(_ & _ & E)|[(_ & _ & _ & E)|(_ & _ & _ & _ & E)]]].
  1-3: exists []; rewrite E, app_nil_r; split; [reflexivity | now left].
  exists [new_order_row now items total name mobile].
  split; [exact E | now right].
Qed.

Lemma order_placed_iff_accepted now wo items total name mobile w :
  res_outcome (place_order_and_rerun now wo items total name mobile w) = Rerun ->
  name <> [] /\ mobile_rejected mobile = false /\ 0 < total.
Proof.
  intros H.
  destruct (checkout_paths now wo items total name mobile w)
    as [[_ E]|[(_ & _ & E)|[(_ & _ & _ & E)|(Hn & Hm & Ht & _ & _)]]];
    try (rewrite E in H; discriminate H).
  auto.
Qed.

(** The order is placed (the callback reaches the rerun) exactly when the
    name is not empty, the mobile number passes the check, the total is
    above 0 and the write of the data file completes. *)
Theorem order_placed_iff_valid_and_written :
  forall now wo cart_details total_price name mobile w,
    res_outcome (place_order_and_rerun now wo cart_details total_price name mobile w)
      = Rerun
    <-> name <> [] /\ mobile_rejected mobile = false /\ 0 < total_price /\
        wo = Written.
Proof.
  intros now wo items total name mobile w. split.
  - intros H.
    destruct (checkout_paths now wo items total name mobile w)
      as [[_ E]|[(_ & _ & E)|[(_ & _ & _ & E)|(Hn & Hm & Ht & _ & _)]]];
      try (rewrite E in H; discriminate H).
    rewrite (checkout_accepted now wo items total name mobile w Hn Hm Ht) in H.
    destruct wo; [auto | discriminate H].
  - intros (Hn & Hm & Ht & ->).
    now rewrite (checkout_accepted now Written items total name mobile w Hn Hm Ht).
Qed.

(** Every row the callback appends has a non-empty name, a mobile number
    of ten [isdigit] characters and a total above 0: if all rows of the
    order log are such rows before a call, they are after it. *)
Theorem order_log_rows_stay_valid :
  forall now wo cart_details total_price name mobile w,
    Forall valid_row (order_history (session w)) ->
    Forall valid_row
      (order_history (session (res_world
         (place_order_and_rerun now wo cart_details total_price name mobile w)))).
Proof.
  intros now wo items total name mobile w H.
  destruct (checkout_paths now wo items total name mobile w)
    as [[_ E]|[(_ & _ & E)|[(_ & _ & _ & E)|(Hn & Hm & Ht & _ & E)]]];
    try (rewrite E; exact H).
  rewrite E. apply Forall_app. split; [exact H|].
  constructor; [|constructor].
  split; [exact Hn|]. split; [now apply mobile_accepted_iff | exact Ht].
Qed.

Lemma order_log_rows_stay_valid_witness :
  Forall valid_row (order_history (session Sample.start)) /\
  Forall valid_row
    (order_history (session (res_world
       (place_order_and_rerun Sample.now Written Sample.lemonade_items 800
          Sample.name Sample.mobile Sample.start)))).
Proof.
  assert (H : Forall valid_row (order_history (session Sample.start)))
    by constructor.
  split; [exact H|].
  apply (order_log_rows_stay_valid Sample.now Written Sample.lemonade_items 800
           Sample.name Sample.mobile Sample.start H).
Defined.

(** After a placed order the data file holds exactly the in-memory order
    log; and if the file matched the log before a call that raises
    nothing, it matches the log after it. *)
Theorem data_file_matches_order_log :
  forall now wo cart_details total_price name mobile w,
    (res_outcome (place_order_and_rerun now wo cart_details total_price name mobile w)
       = Rerun ->
     file_in_sync (res_world
       (place_order_and_rerun now wo cart_details total_price name mobile w))) /\
    (file_in_sync w ->
     (forall e,
        res_outcome (place_order_and_rerun now wo cart_details total_price name mobile w)
          <> Raised e) ->
     file_in_sync (res_world
       (place_order_and_rerun now wo cart_details total_price name mobile w))).
Proof.
  intros now wo items total name mobile w.
  destruct (checkout_paths now wo items total name mobile w)
    as [[_ E]|[(_ & _ & E)|[(_ & _ & _ & E)|(Hn & Hm & Ht & _ & _)]]];
    try (rewrite E; split; [discriminate | intros H _; exact H]).
  rewrite (checkout_accepted now wo items total name mobile w Hn Hm Ht).
  destruct wo as [|e remains].
  - split; intros; reflexivity.
  - split; [discriminate|]. intros _ H. now destruct (H e).
Qed.

Lemma data_file_matches_order_log_witness :
  res_outcome (place_order_and_rerun Sample.now Written Sample.lemonade_items 800
                 Sample.name Sample.mobile Sample.start) = Rerun /\
  file_in_sync (res_world
    (place_order_and_rerun Sample.now Written Sample.lemonade_items 800
       Sample.name Sample.mobile Sample.start)).
Proof.
  split; [reflexivity|].
  exact (proj1 (data_file_matches_order_log Sample.now Written Sample.lemonade_items
                  800 Sample.name Sample.mobile Sample.start) eq_refl).
Defined.

(** ** Analytics, reload and download after a placed order *)

Lemma tab2_snoc (h : DataFrame) (o : order) :
  tab2 (h ++ [o]) =
    [ StSubheader (lit "Quick Sales Summary");
      StMetric (lit "Total Transactions") (MInt (Z.of_nat (List.length h) + 1));
      StMetric (lit "Gross Revenue")
               (MStr (lit "$" ++ fmt2f (spec_grossRevenue h + Total_Price o)));
      StMetric (lit "Total Items Sold")
               (MInt (spec_totalItemsSold h + spec_quantity (Items_Ordered o))) ].
Proof.
  unfold tab2.
  assert (Hne : df_empty (h ++ [o]) = false) by now destruct h.
  rewrite Hne. cbn [negb].
  rewrite !map_app, flat_map_app, !py_sum_app, revenue_is_sum, items_sold_is_sum.
  cbn [map flat_map]. rewrite app_nil_r, quantity_is_sum.
  rewrite length_app. cbn [List.length].
  replace (Z.of_nat (List.length h + 1)) with (Z.of_nat (List.length h) + 1) by lia.
  unfold py_sum at 1. cbn [fold_left]. reflexivity.
Qed.

(** After a placed order the analytics tab counts one more transaction,
    the gross revenue has grown by the order's total and the items sold by
    the quantities of the order's cart lines. *)
Theorem analytics_after_placed_order :
  forall now wo cart_details total_price name mobile w,
    res_outcome (place_order_and_rerun now wo cart_details total_price name mobile w)
      = Rerun ->
    tab2 (order_history (session (res_world
           (place_order_and_rerun now wo cart_details total_price name mobile w)))) =
      [ StSubheader (lit "Quick Sales Summary");
        StMetric (lit "Total Transactions")
                 (MInt (Z.of_nat (List.length (order_history (session w))) + 1));
        StMetric (lit "Gross Revenue")
                 (MStr (lit "$" ++
                        fmt2f (spec_grossRevenue (order_history (session w))
                               + total_price)));
        StMetric (lit "Total Items Sold")
                 (MInt (spec_totalItemsSold (order_history (session w))
                        + spec_quantity cart_details)) ].
Proof.
  intros now wo items total name mobile w H.
  destruct (checkout_paths now wo items total name mobile w)
    as [[_ E]|[(_ & _ & E)|[(_ & _ & _ & E)|(_ & _ & _ & _ & E)]]];
    try (rewrite E in H; discriminate H).
  rewrite E. apply tab2_snoc.
Qed.

Lemma analytics_after_placed_order_witness :
  res_outcome (place_order_and_rerun Sample.now Written Sample.lemonade_items 800
                 Sample.name Sample.mobile Sample.start) = Rerun /\
  tab2 (order_history (session (res_world
         (place_order_and_rerun Sample.now Written Sample.lemonade_items 800
            Sample.name Sample.mobile Sample.start)))) =
    [ StSubheader (lit "Quick Sales Summary");
      StMetric (lit "Total Transactions") (MInt 1);
      StMetric (lit "Gross Revenue") (MStr (lit "$8.00"));
      StMetric (lit "Total Items Sold") (MInt 2) ].
Proof.
  split; [reflexivity|].
  apply (analytics_after_placed_order Sample.now Written Sample.lemonade_items 800
           Sample.name Sample.mobile Sample.start).
  reflexivity.
Defined.

(** Whatever order is placed through the checkout button, a later
    [load_orders] on the data file it wrote returns an empty order log and
    an error message: the row has at least one cart line, written as a
    dict display, on which [pd.eval] raises. *)
Theorem placed_order_does_not_load_again :
  forall DATA_FILE build_frame now name mobile w r,
    checkout_click now Written name mobile w = Some r ->
    res_outcome r = Rerun ->
    load_orders DATA_FILE build_frame (data_file (res_world r)) =
      (empty_frame, [StError (load_error_msg DATA_FILE Dict_not_implemented)]).
Proof.
  intros F bf now name mobile w r Hclick Hrun. unfold checkout_click in Hclick.
  destruct (cart_summary (cart (session w))) as [[[|x items] total]|];
    try discriminate Hclick.
  injection Hclick as <-.
  apply order_placed_iff_accepted in Hrun as (Hn & Hm & Ht).
  rewrite (checkout_accepted now Written (x :: items) total name mobile w Hn Hm Ht).
  cbn [res_world fst data_file set_history order_history].
  apply (load_written F bf).
  apply Exists_app. right. constructor. discriminate.
Qed.

Lemma placed_order_does_not_load_again_witness :
  (checkout_click Sample.now Written Sample.name Sample.mobile Sample.start
     = Some (place_order_and_rerun Sample.now Written Sample.lemonade_items 800
               Sample.name Sample.mobile Sample.start) /\
   res_outcome (place_order_and_rerun Sample.now Written Sample.lemonade_items 800
                  Sample.name Sample.mobile Sample.start) = Rerun) /\
  load_orders Sample.file_name Sample.no_frame
    (data_file (res_world
       (place_order_and_rerun Sample.now Written Sample.lemonade_items 800
          Sample.name Sample.mobile Sample.start))) =
    (empty_frame, [StError (load_error_msg Sample.file_name Dict_not_implemented)]).
Proof.
  split; [split; reflexivity|].
  apply (placed_order_does_not_load_again Sample.file_name Sample.no_frame
           Sample.now Sample.name Sample.mobile Sample.start).
  - reflexivity.
  - reflexivity.
Defined.

(** After a placed order the order history tab shows one table row per
    order, the items of each row formatted as one string, and offers for
    download exactly the content of the data file. *)
Theorem download_is_the_data_file_after_placed_order :
  forall now wo cart_details total_price name mobile w,
    res_outcome (place_order_and_rerun now wo cart_details total_price name mobile w)
      = Rerun ->
    exists content,
      data_file (res_world
        (place_order_and_rerun now wo cart_details total_price name mobile w))
        = Some content /\
      tab1 (order_history (session (res_world
              (place_order_and_rerun now wo cart_details total_price name mobile w))))
        = OrderTable
            (map display_of (order_history (session w)) ++
             [ {| d_Timestamp := now; d_Customer_Name := name;
                  d_Mobile_Number := mobile;
                  d_Items_Ordered := format_items cart_details;
                  d_Total_Price := total_price |} ])
            content.
Proof.
  intros now wo items total name mobile w H.
  apply order_placed_iff_accepted in H as H'. destruct H' as (Hn & Hm & Ht).
  rewrite (checkout_accepted now wo items total name mobile w Hn Hm Ht) in *.
  destruct wo as [|e remains]; [|discriminate H].
  eexists. split; [reflexivity|].
  cbn [res_world fst session clear_cart order_history set_history].
  unfold tab1.
  assert (Hne : forall o, df_empty (order_history (session w) ++ [o]) = false)
    by (intros o; now destruct (order_history (session w))).
  rewrite Hne. cbn [negb]. now rewrite map_app.
Qed.

Lemma download_is_the_data_file_after_placed_order_witness :
  res_outcome (place_order_and_rerun Sample.now Written Sample.lemonade_items 800
                 Sample.name Sample.mobile Sample.start) = Rerun /\
  exists content,
    data_file (res_world
      (place_order_and_rerun Sample.now Written Sample.lemonade_items 800
         Sample.name Sample.mobile Sample.start)) = Some content /\
    tab1 (order_history (session (res_world
            (place_order_and_rerun Sample.now Written Sample.lemonade_items 800
               Sample.name Sample.mobile Sample.start))))
      = OrderTable
          (map display_of (order_history (session Sample.start)) ++
           [ {| d_Timestamp := Sample.now; d_Customer_Name := Sample.name;
                d_Mobile_Number := Sample.mobile;
                d_Items_Ordered := format_items Sample.lemonade_items;
                d_Total_Price := 800 |} ])
          content.
Proof.
  split; [reflexivity|].
  apply (download_is_the_data_file_after_placed_order
           Sample.now Written Sample.lemonade_items 800
           Sample.name Sample.mobile Sample.start).
  reflexivity.
Defined.

(** ** Checkout, composed *)

(** Every order the specification calls valid is placed: a name that is
    not empty after trimming, a mobile number of ten characters 0..9, a
    total above 0 and a write that completes end in the rerun, with the
    row appended. *)
Theorem spec_valid_checkout_is_placed :
  forall now cart_details total_price name mobile w,
    ~ spec_name_missing name ->
    spec_mobile_valid mobile ->
    0 < total_price ->
    res_outcome (place_order_and_rerun now Written cart_details total_price name mobile w)
      = Rerun /\
    order_history (session (res_world
      (place_order_and_rerun now Written cart_details total_price name mobile w)))
      = order_history (session w) ++
        [new_order_row now cart_details total_price name mobile].
Proof.
  intros now items total name mobile w Hn Hm Ht.
  apply spec_name_present_nonempty in Hn.
  apply spec_mobile_valid_accepted in Hm.
  rewrite (checkout_accepted now Written items total name mobile w Hn Hm Ht).
  split; reflexivity.
Qed.

Lemma spec_valid_checkout_is_placed_witness :
  (~ spec_name_missing Sample.name /\ spec_mobile_valid Sample.mobile /\ 0 < 800) /\
  res_outcome (place_order_and_rerun Sample.now Written Sample.lemonade_items 800
                 Sample.name Sample.mobile Sample.start) = Rerun.
Proof.
  assert (Hn : ~ spec_name_missing Sample.name) by (intros H; discriminate H).
  assert (Hm : spec_mobile_valid Sample.mobile) by (split; reflexivity).
  split; [split; [exact Hn | split; [exact Hm | lia]]|].
  apply (spec_valid_checkout_is_placed Sample.now Sample.lemonade_items 800
           Sample.name Sample.mobile Sample.start Hn Hm).
  lia.
Defined.

(** An order placed through the checkout button records the cart as the
    script summed it up: its items are the cart lines, and its total is
    above 0 and is the sum over those lines of quantity times catalog
    price. *)
Theorem button_order_records_the_cart :
  forall now wo name mobile w r,
    checkout_click now wo name mobile w = Some r ->
    res_outcome r = Rerun ->
    exists items total,
      cart_summary (cart (session w)) = Some (items, total) /\
      order_history (session (res_world r)) =
        order_history (session w) ++ [new_order_row now items total name mobile] /\
      total = lines_value items /\
      0 < total.
Proof.
  intros now wo name mobile w r Hclick Hrun. unfold checkout_click in Hclick.
  destruct (cart_summary (cart (session w))) as [[[|x items] total]|] eqn:Hs;
    try discriminate Hclick.
  injection Hclick as <-.
  exists (x :: items), total. split; [reflexivity|].
  pose proof (summary_total_positive _ _ _ _ Hs) as Hpos.
  apply cart_summary_adds in Hs as (_ & _ & Hv).
  destruct (checkout_paths now wo (x :: items) total name mobile w)
    as [[_ E]|[(_ & _ & E)|[(_ & _ & _ & E)|(_ & _ & _ & _ & E)]]];
    try (rewrite E in Hrun; discriminate Hrun).
  auto.
Qed.

Lemma button_order_records_the_cart_witness :
  (checkout_click Sample.now Written Sample.name Sample.mobile Sample.start
     = Some (place_order_and_rerun Sample.now Written Sample.lemonade_items 800
               Sample.name Sample.mobile Sample.start) /\
   res_outcome (place_order_and_rerun Sample.now Written Sample.lemonade_items 800
                  Sample.name Sample.mobile Sample.start) = Rerun) /\
  exists items total,
    cart_summary (cart (session Sample.start)) = Some (items, total) /\
    order_history (session (res_world
      (place_order_and_rerun Sample.now Written Sample.lemonade_items 800
         Sample.name Sample.mobile Sample.start))) =
      order_history (session Sample.start) ++
      [new_order_row Sample.now items total Sample.name Sample.mobile] /\
    total = lines_value items /\
    0 < total.
Proof.
  split; [split; reflexivity|].
  apply (button_order_records_the_cart Sample.now Written Sample.name Sample.mobile
           Sample.start).
  - reflexivity.
  - reflexivity.
Defined.

(** A checkout whose write fails, followed by the same checkout with a
    write that completes, leaves the order in the order log and in the
    data file twice: the row of the failed attempt stays in the log and
    the second attempt appends its own. *)
Theorem retry_after_failed_write_records_order_twice :
  forall now1 now2 e remains cart_details total_price name mobile w,
    name <> [] -> mobile_rejected mobile = false -> 0 < total_price ->
    let w1 := res_world
                (place_order_and_rerun now1 (WriteFails e remains)
                   cart_details total_price name mobile w) in
    let r2 := place_order_and_rerun now2 Written
                cart_details total_price name mobile w1 in
    res_outcome r2 = Rerun /\
    order_history (session (res_world r2)) =
      order_history (session w) ++
      [ new_order_row now1 cart_details total_price name mobile;
        new_order_row now2 cart_details total_price name mobile ] /\
    file_in_sync (res_world r2).
Proof.
  intros now1 now2 e remains items total name mobile w Hn Hm Ht w1 r2.
  subst r2 w1.
  rewrite (checkout_accepted now1 (WriteFails e remains) items total name mobile w
             Hn Hm Ht).
  cbn [res_world fst].
  rewrite (checkout_accepted now2 Written items total name mobile _ Hn Hm Ht).
  cbn [res_outcome res_world fst snd session set_history order_history
       clear_cart].
  split; [reflexivity|]. split.
  - now rewrite <- app_assoc.
  - reflexivity.
Qed.

Lemma retry_after_failed_write_records_order_twice_witness :
  (Sample.name <> [] /\ mobile_rejected Sample.mobile = false /\ 0 < 800) /\
  res_outcome
    (place_order_and_rerun Sample.now Written Sample.lemonade_items 800
       Sample.name Sample.mobile
       (res_world (place_order_and_rerun Sample.now (WriteFails Sample.disk_full None)
                     Sample.lemonade_items 800 Sample.name Sample.mobile
                     Sample.start))) = Rerun.
Proof.
  split; [split; [discriminate | split; [reflexivity | lia]]|].
  apply (retry_after_failed_write_records_order_twice
           Sample.now Sample.now Sample.disk_full None Sample.lemonade_items 800
           Sample.name Sample.mobile Sample.start).
  - discriminate.
  - reflexivity.
  - lia.
Defined.
